(** * Ledger, monthly aggregation and edit reconciliation of the broker dashboard

    A shallow embedding of the logic of [src/components/BrokerDashboard.tsx]:
    the running lead balance ([entriesWithCalculatedBalances]), the monthly
    summary ([monthlySummary]), the draft/entry/default load effect, the
    auto-save effect, and the two commit handlers ([handleSubmit] and
    [handleBulkSave]).

    Counters are JavaScript numbers holding integers; they are modelled as [Z].
    Dates are the strings the component manipulates ([YYYY-MM-DD]); both the
    string operations ([<], [startsWith]) and the [Date] conversions the code
    applies to them are modelled. *)

From Stdlib Require Import ZArith List String Ascii Bool Lia.
From Stdlib Require Import Sorting.Sorted Sorting.Permutation.
From Stdlib Require Import Floats.SpecFloat DecimalString.
From Stdlib Require Import Reals Lra.
From stdpp Require Import gmap strings.
Import ListNotations.

Local Open Scope string_scope.
Local Open Scope Z_scope.

(** ** Dates: the part of ECMAScript's [Date] the component relies on *)

Module JSDate.

Record YMD := mkYMD { year : Z; month : Z; day : Z }.

(** Value of a decimal digit character, [None] for any other character. *)
Definition digit (c : ascii) : option Z :=
  let n := Z.of_N (N_of_ascii c) in
  if (48 <=? n) && (n <=? 57) then Some (n - 48) else None.

(** ECMA-262 [DaysInYear]. *)
Definition InLeapYear (y : Z) : bool :=
  ((y mod 4 =? 0) && negb (y mod 100 =? 0)) || (y mod 400 =? 0).

Definition DaysInYear (y : Z) : Z := if InLeapYear y then 366 else 365.

(** ECMA-262 [DayFromYear]: day number of January 1st of year [y]. *)
Definition DayFromYear (y : Z) : Z :=
  365 * (y - 1970) + (y - 1969) / 4 - (y - 1901) / 100 + (y - 1601) / 400.

(** Number of days of the year that precede month [m] (1-based). *)
Definition DaysBeforeMonth (leap : bool) (m : Z) : Z :=
  let l := if leap then 1 else 0 in
  match m with
  | 1 => 0 | 2 => 31 | 3 => 59 + l | 4 => 90 + l | 5 => 120 + l
  | 6 => 151 + l | 7 => 181 + l | 8 => 212 + l | 9 => 243 + l
  | 10 => 273 + l | 11 => 304 + l | _ => 334 + l
  end.

Definition DaysInMonth (leap : bool) (m : Z) : Z :=
  match m with
  | 2 => if leap then 29 else 28
  | 4 | 6 | 9 | 11 => 30
  | _ => 31
  end.

(** ECMA-262 [MakeDay] for an in-range month and day. *)
Definition MakeDay (d : YMD) : Z :=
  DayFromYear (year d) + DaysBeforeMonth (InLeapYear (year d)) (month d)
  + (day d - 1).

Definition msPerDay : Z := 86400000.

Definition validYMD (d : YMD) : bool :=
  (1 <=? month d) && (month d <=? 12) && (1 <=? day d)
  && (day d <=? DaysInMonth (InLeapYear (year d)) (month d)).

(** The ISO date-only form [YYYY-MM-DD].  Anything else (other formats,
    which engines parse in implementation-defined ways, and impossible
    calendar dates) is not a date of the data model and yields [None]. *)
Definition parseISODate (s : string) : option YMD :=
  match s with
  | String y1 (String y2 (String y3 (String y4 (String "-"
    (String m1 (String m2 (String "-"
    (String d1 (String d2 EmptyString))))))))) =>
      match digit y1, digit y2, digit y3, digit y4,
            digit m1, digit m2, digit d1, digit d2 with
      | Some a, Some b, Some c, Some d, Some e, Some f, Some g, Some h =>
          let r := mkYMD (1000 * a + 100 * b + 10 * c + d) (10 * e + f)
                         (10 * g + h) in
          if validYMD r then Some r else None
      | _, _, _, _, _, _, _, _ => None
      end
  | _ => None
  end.

(** [new Date(s).getTime()]: milliseconds since the epoch of midnight UTC
    of the date, [None] standing for [NaN] (an invalid date). *)
Definition getTime (s : string) : option Z :=
  match parseISODate s with
  | Some d => Some (MakeDay d * msPerDay)
  | None => None
  end.

Definition validDate (s : string) : bool :=
  match parseISODate s with Some _ => true | None => false end.


(** The shape of a string accepted by [parseISODate]. *)
Inductive isoShape (s : string) (d : YMD) : Prop :=
| IsoShape y1 y2 y3 y4 m1 m2 d1 d2 a b c e f g h i :
    s = String y1 (String y2 (String y3 (String y4 (String "-"
        (String m1 (String m2 (String "-"
        (String d1 (String d2 EmptyString))))))))) ->
    digit y1 = Some a -> digit y2 = Some b -> digit y3 = Some c ->
    digit y4 = Some e -> digit m1 = Some f -> digit m2 = Some g ->
    digit d1 = Some h -> digit d2 = Some i ->
    d = mkYMD (1000 * a + 100 * b + 10 * c + e) (10 * f + g) (10 * h + i) ->
    validYMD d = true ->
    isoShape s d.

(** Calendar order as one number. *)
Definition dateKey (d : YMD) : Z := year d * 10000 + month d * 100 + day d.

End JSDate.

Import JSDate.

(** ** Data model *)

(** Modelled from the spec: the type [DailyEntry] of [../types], which is
    imported by the component but whose declaration is not part of the
    sources.  [EntryFields] is [Omit<DailyEntry, 'date'>], the shape of the
    edit form: eleven counters and the discard reason.  [repiqueLeads] and
    [discardReason] may be absent from a stored record ([None]), which is why
    the component reads them through [|| 0], [?? 0] and [|| '']. *)
Record EntryFields := mkFields {
  newLeads : Z;
  discardedLeads : Z;
  repiqueLeads : option Z;
  localVisits : Z;
  contactingLeads : Z;
  inProgressLeads : Z;
  scheduledLeads : Z;
  negotiationLeads : Z;
  creditAnalysisLeads : Z;
  approvedLeads : Z;
  signedLeads : Z;
  discardReason : option string
}.

(** Modelled from the spec: [DailyEntry] of [../types]; the flat object
    [{ date, ...fields }]. *)
Record DailyEntry := mkEntry {
  date : string;
  fields :> EntryFields
}.

(** Modelled from the spec: [BrokerProfile] of [../types]. *)
Record BrokerProfile := mkProfile {
  brokerName : string;
  initialLeads : Z;
  monthlySalesGoal : option Z;
  dailyEntries : list DailyEntry
}.

(** [x || 0] and [x ?? 0] on a possibly absent number. *)
Definition orZero (x : option Z) : Z :=
  match x with Some v => v | None => 0 end.

(** [x || ''] on a possibly absent string. *)
Definition orEmpty (x : option string) : string :=
  match x with Some v => v | None => "" end.

(** The keys of [Omit<DailyEntry, 'date' | 'discardReason'>], in the order of
    [fieldOrder]. *)
Inductive CounterField :=
| NewLeads | DiscardedLeads | RepiqueLeads | LocalVisits | ContactingLeads
| InProgressLeads | ScheduledLeads | NegotiationLeads | CreditAnalysisLeads
| ApprovedLeads | SignedLeads.

Definition fieldOrder : list CounterField :=
  [NewLeads; DiscardedLeads; RepiqueLeads; LocalVisits; ContactingLeads;
   InProgressLeads; ScheduledLeads; NegotiationLeads; CreditAnalysisLeads;
   ApprovedLeads; SignedLeads].

#[global] Instance CounterField_eq_dec : EqDecision CounterField.
Proof. solve_decision. Defined.

(** [entry[field]]: [None] is [undefined]. *)
Definition getCounter (f : CounterField) (e : EntryFields) : option Z :=
  match f with
  | NewLeads => Some (newLeads e)
  | DiscardedLeads => Some (discardedLeads e)
  | RepiqueLeads => repiqueLeads e
  | LocalVisits => Some (localVisits e)
  | ContactingLeads => Some (contactingLeads e)
  | InProgressLeads => Some (inProgressLeads e)
  | ScheduledLeads => Some (scheduledLeads e)
  | NegotiationLeads => Some (negotiationLeads e)
  | CreditAnalysisLeads => Some (creditAnalysisLeads e)
  | ApprovedLeads => Some (approvedLeads e)
  | SignedLeads => Some (signedLeads e)
  end.

(** [{ ...prev, [field]: v }]. *)
Definition setCounter (f : CounterField) (v : Z) (e : EntryFields)
  : EntryFields :=
  match f with
  | NewLeads => mkFields v (discardedLeads e) (repiqueLeads e) (localVisits e) (contactingLeads e) (inProgressLeads e) (scheduledLeads e) (negotiationLeads e) (creditAnalysisLeads e) (approvedLeads e) (signedLeads e) (discardReason e)
  | DiscardedLeads => mkFields (newLeads e) v (repiqueLeads e) (localVisits e) (contactingLeads e) (inProgressLeads e) (scheduledLeads e) (negotiationLeads e) (creditAnalysisLeads e) (approvedLeads e) (signedLeads e) (discardReason e)
  | RepiqueLeads => mkFields (newLeads e) (discardedLeads e) (Some v) (localVisits e) (contactingLeads e) (inProgressLeads e) (scheduledLeads e) (negotiationLeads e) (creditAnalysisLeads e) (approvedLeads e) (signedLeads e) (discardReason e)
  | LocalVisits => mkFields (newLeads e) (discardedLeads e) (repiqueLeads e) v (contactingLeads e) (inProgressLeads e) (scheduledLeads e) (negotiationLeads e) (creditAnalysisLeads e) (approvedLeads e) (signedLeads e) (discardReason e)
  | ContactingLeads => mkFields (newLeads e) (discardedLeads e) (repiqueLeads e) (localVisits e) v (inProgressLeads e) (scheduledLeads e) (negotiationLeads e) (creditAnalysisLeads e) (approvedLeads e) (signedLeads e) (discardReason e)
  | InProgressLeads => mkFields (newLeads e) (discardedLeads e) (repiqueLeads e) (localVisits e) (contactingLeads e) v (scheduledLeads e) (negotiationLeads e) (creditAnalysisLeads e) (approvedLeads e) (signedLeads e) (discardReason e)
  | ScheduledLeads => mkFields (newLeads e) (discardedLeads e) (repiqueLeads e) (localVisits e) (contactingLeads e) (inProgressLeads e) v (negotiationLeads e) (creditAnalysisLeads e) (approvedLeads e) (signedLeads e) (discardReason e)
  | NegotiationLeads => mkFields (newLeads e) (discardedLeads e) (repiqueLeads e) (localVisits e) (contactingLeads e) (inProgressLeads e) (scheduledLeads e) v (creditAnalysisLeads e) (approvedLeads e) (signedLeads e) (discardReason e)
  | CreditAnalysisLeads => mkFields (newLeads e) (discardedLeads e) (repiqueLeads e) (localVisits e) (contactingLeads e) (inProgressLeads e) (scheduledLeads e) (negotiationLeads e) v (approvedLeads e) (signedLeads e) (discardReason e)
  | ApprovedLeads => mkFields (newLeads e) (discardedLeads e) (repiqueLeads e) (localVisits e) (contactingLeads e) (inProgressLeads e) (scheduledLeads e) (negotiationLeads e) (creditAnalysisLeads e) v (signedLeads e) (discardReason e)
  | SignedLeads => mkFields (newLeads e) (discardedLeads e) (repiqueLeads e) (localVisits e) (contactingLeads e) (inProgressLeads e) (scheduledLeads e) (negotiationLeads e) (creditAnalysisLeads e) (approvedLeads e) v (discardReason e)
  end.

(** ** Ledger Builder: [entriesWithCalculatedBalances] *)

(** The comparator handed to [sort]:
    [(a, b) => new Date(a.date).getTime() - new Date(b.date).getTime()].
    A [NaN] result is read by [sort] as [+0]. *)
Definition compareByDate (a b : DailyEntry) : Z :=
  match getTime (date a), getTime (date b) with
  | Some ta, Some tb => ta - tb
  | _, _ => 0
  end.

(** [Array.prototype.sort] is stable; for a consistent comparator its result
    is the unique stable sorted arrangement, computed here by insertion. *)
Fixpoint insertSorted {A} (cmp : A -> A -> Z) (x : A) (l : list A) : list A :=
  match l with
  | [] => [x]
  | y :: l' => if cmp x y <=? 0 then x :: l else y :: insertSorted cmp x l'
  end.

Fixpoint sort {A} (cmp : A -> A -> Z) (l : list A) : list A :=
  match l with
  | [] => []
  | x :: l' => insertSorted cmp x (sort cmp l')
  end.

(** [[...profile.dailyEntries].sort(...)]. *)
Definition chronologicalEntries (profile : BrokerProfile) : list DailyEntry :=
  sort compareByDate (dailyEntries profile).

(** [{ ...entry, startOfDayBalance, endOfDayBalance }]. *)
Record LedgerEntry := mkLedger {
  entry :> DailyEntry;
  startOfDayBalance : Z;
  endOfDayBalance : Z
}.

(** The balance update shared by the ledger and the monthly summary:
    [base + entry.newLeads + (entry.repiqueLeads || 0)
     - entry.discardedLeads - entry.signedLeads]. *)
Definition nextLeadBase (currentLeadBase : Z) (e : EntryFields) : Z :=
  currentLeadBase + newLeads e + orZero (repiqueLeads e)
  - discardedLeads e - signedLeads e.

(** The [map] callback with the mutable [currentLeadBase] threaded through. *)
Fixpoint withBalances (currentLeadBase : Z) (l : list DailyEntry)
  : list LedgerEntry :=
  match l with
  | [] => []
  | e :: rest =>
      let startOfDay := currentLeadBase in
      let endOfDay := nextLeadBase currentLeadBase e in
      mkLedger e startOfDay endOfDay :: withBalances endOfDay rest
  end.

(** The local [entriesWithBalance]: the ledger in chronological order. *)
Definition entriesWithBalance (profile : BrokerProfile) : list LedgerEntry :=
  withBalances (initialLeads profile) (chronologicalEntries profile).

(** The memo's value: the ledger reversed for on-screen display. *)
Definition entriesWithCalculatedBalances (profile : BrokerProfile)
  : list LedgerEntry :=
  rev (entriesWithBalance profile).

(** ** Monthly Aggregator: [monthlySummary] *)

(** The [for ... of] loop with its [break]: accumulate while
    [entry.date < `${selectedMonth}-01`] (string comparison). *)
Fixpoint cumulatePrevious (bound : string) (currentLeadBaseForMonth : Z)
  (l : list DailyEntry) : Z :=
  match l with
  | [] => currentLeadBaseForMonth
  | e :: rest =>
      if String.ltb (date e) bound
      then cumulatePrevious bound (nextLeadBase currentLeadBaseForMonth e) rest
      else currentLeadBaseForMonth
  end.

(** [l.reduce((sum, entry) => sum + f(entry), 0)]. *)
Definition sumOf (f : DailyEntry -> Z) (l : list DailyEntry) : Z :=
  fold_left (fun sum e => sum + f e) l 0.

Definition monthEntriesOf (selectedMonth : string) (l : list DailyEntry)
  : list DailyEntry :=
  List.filter (fun e => String.prefix selectedMonth (date e)) l.

(** ** Local time and ISO rendering, as used by the bulk loop *)

Module JSLocal.

(** Year of a day number: the [y] with
    [DayFromYear y <= day < DayFromYear (y + 1)] (ECMA-262 [YearFromTime]),
    found next to the estimate given by the mean year length. *)
Definition YearFromDay (dayNumber : Z) : Z :=
  let y := 1970 + (400 * dayNumber) / 146097 in
  if DayFromYear (y + 1) <=? dayNumber then y + 1
  else if DayFromYear y <=? dayNumber then y
  else y - 1.

(** ECMA-262 [MonthFromTime] (1-based here) from the day within the year. *)
Definition MonthFromDayInYear (leap : bool) (dayInYear : Z) : Z :=
  if dayInYear <? DaysBeforeMonth leap 2 then 1
  else if dayInYear <? DaysBeforeMonth leap 3 then 2
  else if dayInYear <? DaysBeforeMonth leap 4 then 3
  else if dayInYear <? DaysBeforeMonth leap 5 then 4
  else if dayInYear <? DaysBeforeMonth leap 6 then 5
  else if dayInYear <? DaysBeforeMonth leap 7 then 6
  else if dayInYear <? DaysBeforeMonth leap 8 then 7
  else if dayInYear <? DaysBeforeMonth leap 9 then 8
  else if dayInYear <? DaysBeforeMonth leap 10 then 9
  else if dayInYear <? DaysBeforeMonth leap 11 then 10
  else if dayInYear <? DaysBeforeMonth leap 12 then 11
  else 12.

Definition YMDFromDay (dayNumber : Z) : YMD :=
  let y := YearFromDay dayNumber in
  let leap := InLeapYear y in
  let dayInYear := dayNumber - DayFromYear y in
  let m := MonthFromDayInYear leap dayInYear in
  mkYMD y m (dayInYear - DaysBeforeMonth leap m + 1).

Definition digitChar (n : Z) : ascii := ascii_of_N (Z.to_N (48 + n mod 10)).

Definition pad2 (n : Z) : string :=
  String (digitChar (n / 10)) (String (digitChar n) EmptyString).

Definition pad4 (n : Z) : string := pad2 (n / 100) ++ pad2 n.

(** The date part of [toISOString()], for years 0 to 9999; other years
    use the expanded form with a sign and six digits. *)
Definition formatISODate (d : YMD) : string :=
  let y := year d in
  (if (0 <=? y) && (y <=? 9999) then pad4 y
   else (if y <? 0 then "-" else "+") ++ pad2 (Z.abs y / 10000) ++ pad4 (Z.abs y))
  ++ "-" ++ pad2 (month d) ++ "-" ++ pad2 (day d).

(** [new Date(s + 'T00:00:00')]: a date-time without offset is local time.
    [LocalTZA] is the zone's offset from UTC in milliseconds (positive east
    of Greenwich), taken constant over the range. *)
Definition localMidnight (LocalTZA : Z) (s : string) : option Z :=
  match getTime s with
  | Some t => Some (t - LocalTZA)
  | None => None
  end.

(** [d.toISOString().split('T')[0]]: the UTC calendar date of a time value. *)
Definition toISODateString (t : Z) : string :=
  formatISODate (YMDFromDay (t / msPerDay)).

(** [d.setDate(d.getDate() + 1)]: the same local time on the next local
    day. *)
Definition nextLocalDay (t : Z) : Z := t + msPerDay.

End JSLocal.

Import JSLocal.

(** ** Edit Reconciler: state of the component and of its collaborators *)

(** A value held by [localStorage], classified by what [JSON.parse] does
    with it: [Json d] is the text [JSON.stringify(d)], which is what the
    component writes under a draft key and which parses back to [d];
    [Text raw] is a text on which [JSON.parse] throws. *)
Inductive StoredItem :=
| Json (d : EntryFields)
| Text (raw : string).

(** Truthiness of [localStorage.getItem(key)]: [null] and the empty string
    are falsy. *)
Definition truthyItem (v : option StoredItem) : bool :=
  match v with
  | None => false
  | Some (Text raw) => negb (String.eqb raw "")
  | Some (Json _) => true
  end.

(** What the component can change outside itself: the browser's
    [localStorage], and the calls it makes to the [onSaveEntry] prop, oldest
    first. *)
Record World := mkWorld {
  localStorage : gmap string StoredItem;
  savedEntries : list DailyEntry
}.

(** A number input's value: [number | '']. *)
Inductive InputValue :=
| Num (v : Z)
| Blank.

Record FormState := mkForm {
  dailyData : EntryFields;
  selectedDate : string;
  errors : CounterField -> bool;
  isDraft : bool
}.

Record BulkState := mkBulk {
  showBulkEditModal : bool;
  bulkStartDate : string;
  bulkEndDate : string;
  bulkDailyData : CounterField -> option InputValue;
  bulkErrors : CounterField -> bool
}.

(** The dialogs the handlers raise through [alert]. *)
Inductive Alert :=
| AlertSelectDate | AlertFutureDate | AlertFixErrors | AlertSaved
| AlertBulkStartMissing | AlertBulkEndMissing | AlertBulkStartFuture
| AlertBulkEndFuture | AlertBulkStartAfterEnd | AlertBulkSaved.

Definition initialState : EntryFields :=
  mkFields 0 0 (Some 0) 0 0 0 0 0 0 0 0 (Some "").

(** [{}] for an error record or a sparse override record. *)
Definition noErrors : CounterField -> bool := fun _ => false.
Definition noOverrides : CounterField -> option InputValue := fun _ => None.

(** [{ ...prev, [field]: v }] on those records. *)
Definition setKey {V} (f : CounterField) (v : V) (m : CounterField -> V)
  : CounterField -> V :=
  fun g => if decide (g = f) then v else m g.

(** [Object.values(errors).some(isError => isError)]. *)
Definition hasActiveErrors (errs : CounterField -> bool) : bool :=
  existsb errs fieldOrder.

Definition getDraftKey (profile : BrokerProfile) (d : string) : string :=
  "draft_entry_" ++ brokerName profile ++ "_" ++ d.

(** [profile.dailyEntries.find(e => e.date === d)]. *)
Definition findEntry (profile : BrokerProfile) (d : string)
  : option DailyEntry :=
  List.find (fun e => String.eqb (date e) d) (dailyEntries profile).

(** [{ ...initialState, ...formData }]: absent keys take the initial value. *)
Definition overInitialState (formData : EntryFields) : EntryFields :=
  mkFields (newLeads formData) (discardedLeads formData)
    (match repiqueLeads formData with
     | Some v => Some v | None => repiqueLeads initialState end)
    (localVisits formData) (contactingLeads formData)
    (inProgressLeads formData) (scheduledLeads formData)
    (negotiationLeads formData) (creditAnalysisLeads formData)
    (approvedLeads formData) (signedLeads formData)
    (match discardReason formData with
     | Some v => Some v | None => discardReason initialState end).

(** The committed entry, else the clean slate, never a draft. *)
Definition entryOrDefault (existingEntry : option DailyEntry)
  : EntryFields * bool :=
  match existingEntry with
  | Some e => (overInitialState (fields e), false)
  | None => (initialState, false)
  end.

(** The first effect: "Load data: Check Draft -> Check Saved Entry ->
    Default".  It reads [localStorage] and sets [dailyData], [isDraft] and
    [errors]. *)
Definition loadEffect (profile : BrokerProfile) (storage : gmap string StoredItem)
  (st : FormState) : FormState :=
  let draftKey := getDraftKey profile (selectedDate st) in
  let savedDraft := storage !! draftKey in
  let existingEntry := findEntry profile (selectedDate st) in
  let '(data, draft) :=
    if truthyItem savedDraft then
      match savedDraft with
      | Some (Json parsedDraft) => (parsedDraft, true)
      | _ => entryOrDefault existingEntry (* the catch block *)
      end
    else entryOrDefault existingEntry in
  mkForm data (selectedDate st) noErrors draft.

(** The second effect: "Save Draft on Change". *)
Definition saveDraftEffect (profile : BrokerProfile)
  (storage : gmap string StoredItem) (st : FormState)
  : FormState * gmap string StoredItem :=
  let draftKey := getDraftKey profile (selectedDate st) in
  (mkForm (dailyData st) (selectedDate st) (errors st) true,
   <[draftKey := Json (dailyData st)]> storage).

(** Selecting a date: the render with the new [selectedDate] runs both
    effects in order, the second one still with the form data of that render;
    the state set by the first effect causes a second render, after which the
    second effect runs again with the loaded data. *)
Definition selectDate (profile : BrokerProfile) (d : string)
  (storage : gmap string StoredItem) (st : FormState)
  : FormState * gmap string StoredItem :=
  let rendered := mkForm (dailyData st) d (errors st) (isDraft st) in
  let loaded := loadEffect profile storage rendered in
  let storage1 := snd (saveDraftEffect profile storage rendered) in
  saveDraftEffect profile storage1 loaded.

(** [handleNumberChange]. *)
Definition handleNumberChange (f : CounterField) (value : InputValue)
  (st : FormState) : FormState :=
  let errs :=
    match value with
    | Num v => if v <? 0 then setKey f true (errors st)
               else setKey f false (errors st)
    | Blank => setKey f false (errors st)
    end in
  let stored := match value with Blank => 0 | Num v => Z.max 0 v end in
  mkForm (setCounter f stored (dailyData st)) (selectedDate st) errs
    (isDraft st).

(** [handleBulkNumberChange]. *)
Definition handleBulkNumberChange (f : CounterField) (value : InputValue)
  (b : BulkState) : BulkState :=
  let errs :=
    match value with
    | Num v => if v <? 0 then setKey f true (bulkErrors b)
               else setKey f false (bulkErrors b)
    | Blank => setKey f false (bulkErrors b)
    end in
  mkBulk (showBulkEditModal b) (bulkStartDate b) (bulkEndDate b)
    (setKey f (Some value) (bulkDailyData b)) errs.

(** [finalData]: the form data with the stale reason cleaned. *)
Definition finalData (d : EntryFields) : EntryFields :=
  if discardedLeads d =? 0 then
    mkFields (newLeads d) (discardedLeads d) (repiqueLeads d) (localVisits d)
      (contactingLeads d) (inProgressLeads d) (scheduledLeads d)
      (negotiationLeads d) (creditAnalysisLeads d) (approvedLeads d)
      (signedLeads d) (Some "")
  else d.

(** [handleSubmit], with [today] the value of [getTodayString()]. *)
Definition handleSubmit (today : string) (profile : BrokerProfile)
  (st : FormState) (w : World) : Alert * FormState * World :=
  if String.eqb (selectedDate st) "" then (AlertSelectDate, st, w)
  else if String.ltb today (selectedDate st) then (AlertFutureDate, st, w)
  else if hasActiveErrors (errors st) then (AlertFixErrors, st, w)
  else
    let entryWithDate := mkEntry (selectedDate st) (finalData (dailyData st)) in
    (AlertSaved,
     mkForm (dailyData st) (selectedDate st) (errors st) false,
     mkWorld (delete (getDraftKey profile (selectedDate st)) (localStorage w))
             (savedEntries w ++ [entryWithDate])).

(** One counter of [updatedEntry]:
    [typeof bulk[f] === 'number' ? bulk[f] : (existingEntry?.[f] ?? 0)]. *)
Definition bulkCounter (bulkData : CounterField -> option InputValue)
  (existingEntry : option DailyEntry) (f : CounterField) : Z :=
  match bulkData f with
  | Some (Num v) => v
  | _ => match existingEntry with
         | Some e => orZero (getCounter f e)
         | None => 0
         end
  end.

Definition updatedEntry (bulkData : CounterField -> option InputValue)
  (existingEntry : option DailyEntry) (dateString : string) : DailyEntry :=
  let c := bulkCounter bulkData existingEntry in
  mkEntry dateString
    (mkFields (c NewLeads) (c DiscardedLeads) (Some (c RepiqueLeads))
       (c LocalVisits) (c ContactingLeads) (c InProgressLeads)
       (c ScheduledLeads) (c NegotiationLeads) (c CreditAnalysisLeads)
       (c ApprovedLeads) (c SignedLeads)
       (Some (match existingEntry with
              | Some e => orEmpty (discardReason e)
              | None => ""
              end))).

(** The [while (currentDate <= endDate)] loop; [fuel] bounds the number of
    iterations. *)
Fixpoint bulkLoop (fuel : nat) (profile : BrokerProfile)
  (bulkData : CounterField -> option InputValue) (currentDate endDate : Z)
  (w : World) : option World :=
  if currentDate <=? endDate then
    match fuel with
    | O => None
    | S fuel' =>
        let dateString := toISODateString currentDate in
        let existingEntry := findEntry profile dateString in
        let w' :=
          mkWorld (delete (getDraftKey profile dateString) (localStorage w))
            (savedEntries w ++ [updatedEntry bulkData existingEntry dateString]) in
        bulkLoop fuel' profile bulkData (nextLocalDay currentDate) endDate w'
    end
  else Some w.

(** Iterations the loop needs from [currentDate] to run past [endDate]. *)
Definition bulkFuel (currentDate endDate : Z) : nat :=
  Z.to_nat ((endDate - currentDate) / msPerDay + 1).

(** [handleBulkSave]; [LocalTZA] is the host's offset from UTC. *)
Definition handleBulkSave (LocalTZA : Z) (today : string)
  (profile : BrokerProfile) (b : BulkState) (w : World)
  : Alert * BulkState * World :=
  if String.eqb (bulkStartDate b) "" then (AlertBulkStartMissing, b, w)
  else if String.eqb (bulkEndDate b) "" then (AlertBulkEndMissing, b, w)
  else if String.ltb today (bulkStartDate b) then (AlertBulkStartFuture, b, w)
  else if String.ltb today (bulkEndDate b) then (AlertBulkEndFuture, b, w)
  else if String.ltb (bulkEndDate b) (bulkStartDate b)
       then (AlertBulkStartAfterEnd, b, w)
  else if hasActiveErrors (bulkErrors b) then (AlertFixErrors, b, w)
  else
    let w' :=
      match localMidnight LocalTZA (bulkStartDate b),
            localMidnight LocalTZA (bulkEndDate b) with
      | Some currentDate, Some endDate =>
          match bulkLoop (bulkFuel currentDate endDate) profile
                  (bulkDailyData b) currentDate endDate w with
          | Some w' => w'
          | None => w
          end
      | _, _ => w (* an invalid date compares false: no iteration *)
      end in
    (AlertBulkSaved,
     mkBulk false (bulkStartDate b) (bulkEndDate b) noOverrides noErrors, w').

(** ** Numbers: the floating-point part of [conversionRate] *)

Module JSNumber.

(** Binary64, as specified by the Standard Library's [SpecFloat]. *)
Definition prec : Z := 53.
Definition emax : Z := 1024.

(** The Number whose mathematical value is the integer [n]. *)
Definition ofZ (n : Z) : spec_float := binary_normalize prec emax n 0 false.

Definition div : spec_float -> spec_float -> spec_float := SFdiv prec emax.
Definition mul : spec_float -> spec_float -> spec_float := SFmul prec emax.

Definition decimal (n : Z) : string :=
  NilZero.string_of_uint (N.to_uint (Z.to_N n)).

(** The integer [n] of [Number.prototype.toFixed] for one fraction digit:
    "an integer for which n / 10 - x is as close to zero as possible; if
    there are two such n, pick the larger", for the magnitude
    [x = m * 2^e]. *)
Definition nearestTenths (m : positive) (e : Z) : Z :=
  if 0 <=? e then 10 * Z.pos m * 2 ^ e
  else (20 * Z.pos m + 2 ^ (- e)) / 2 ^ (- e + 1).

(** [n] written with one digit after the point. *)
Definition renderTenths (n : Z) : string :=
  decimal (n / 10) ++ "." ++ decimal (n mod 10).

(** [x.toFixed(1)].  A magnitude of [10^21] or more makes [toFixed] fall
    back to exponent notation, which is outside this model: [None]. *)
Definition toFixed1 (x : spec_float) : option string :=
  match x with
  | S754_nan => Some "NaN"
  | S754_infinity false => Some "Infinity"
  | S754_infinity true => Some "-Infinity"
  | S754_zero _ => Some "0.0"
  | S754_finite sx m e =>
      let n := nearestTenths m e in
      if 10 ^ 22 <=? n then None
      else Some ((if sx then "-" else "") ++ renderTenths n)
  end.

(** The real number a finite positive float stands for. *)
Definition F2R (m : positive) (e : Z) : R :=
  (IZR (Z.pos m) * powerRZ 2 e)%R.

(** The unit roundoff bound used for one operation, [2^-52]. *)
Definition eps : R := (/ 4503599627370496)%R.

End JSNumber.

(** The value of the [monthlySummary] memo. *)
Module Summary.
Record t := mk {
  newLeads : Z;
  repiqueLeads : Z;
  signedLeads : Z;
  discardedLeads : Z;
  conversionRate : option string;
  negotiationLeads : Z;
  initialLeadsForMonth : Z;
  finalLeadsForMonth : Z
}.
End Summary.

(** [totalLeadsIn > 0 ? ((signedLeads / totalLeadsIn) * 100).toFixed(1)
    : "0.0"]. *)
Definition conversionRateOf (signedLeadsSum totalLeadsIn : Z) : option string :=
  if 0 <? totalLeadsIn then
    JSNumber.toFixed1
      (JSNumber.mul
         (JSNumber.div (JSNumber.ofZ signedLeadsSum) (JSNumber.ofZ totalLeadsIn))
         (JSNumber.ofZ 100))
  else Some "0.0".

Definition monthlySummary (profile : BrokerProfile) (selectedMonth : string)
  : Summary.t :=
  let chronological := chronologicalEntries profile in
  let currentLeadBaseForMonth :=
    cumulatePrevious (selectedMonth ++ "-01") (initialLeads profile)
      chronological in
  let monthEntries := monthEntriesOf selectedMonth chronological in
  let newLeadsSum := sumOf (fun e => newLeads e) monthEntries in
  let repiqueLeadsSum := sumOf (fun e => orZero (repiqueLeads e)) monthEntries in
  let signedLeadsSum := sumOf (fun e => signedLeads e) monthEntries in
  let discardedLeadsSum := sumOf (fun e => discardedLeads e) monthEntries in
  let negotiationLeadsSum := sumOf (fun e => negotiationLeads e) monthEntries in
  let totalLeadsIn := newLeadsSum + repiqueLeadsSum in
  let conversionRate := conversionRateOf signedLeadsSum totalLeadsIn in
  let finalLeadsForMonth :=
    currentLeadBaseForMonth + totalLeadsIn - discardedLeadsSum - signedLeadsSum in
  Summary.mk newLeadsSum repiqueLeadsSum signedLeadsSum discardedLeadsSum
    conversionRate negotiationLeadsSum currentLeadBaseForMonth
    finalLeadsForMonth.

(** The discard-reason text area:
    [setDailyData({ ...dailyData, discardReason: e.target.value })]. *)
Definition handleReasonChange (text : string) (st : FormState) : FormState :=
  let d := dailyData st in
  mkForm
    (mkFields (newLeads d) (discardedLeads d) (repiqueLeads d) (localVisits d)
       (contactingLeads d) (inProgressLeads d) (scheduledLeads d)
       (negotiationLeads d) (creditAnalysisLeads d) (approvedLeads d)
       (signedLeads d) (Some text))
    (selectedDate st) (errors st) (isDraft st).

(** What the user can do to the day form between a load and a submit. *)
Inductive FormEvent :=
| TypeNumber (f : CounterField) (value : InputValue)
| TypeReason (text : string).

Definition formStep (st : FormState) (ev : FormEvent) : FormState :=
  match ev with
  | TypeNumber f value => handleNumberChange f value st
  | TypeReason text => handleReasonChange text st
  end.

(** The value last typed into the number input of field [f], if any. *)
Definition lastTyped (f : CounterField) (evs : list FormEvent)
  : option InputValue :=
  fold_left (fun shown ev =>
               match ev with
               | TypeNumber g value => if decide (g = f) then Some value else shown
               | TypeReason _ => shown
               end) evs None.

(** What the user can do to the bulk dialog. *)
Inductive BulkEvent :=
| BulkTypeNumber (f : CounterField) (value : InputValue)
| BulkSetStart (d : string)
| BulkSetEnd (d : string)
| BulkOpen
| BulkCancel.

Definition bulkStep (b : BulkState) (ev : BulkEvent) : BulkState :=
  match ev with
  | BulkTypeNumber f value => handleBulkNumberChange f value b
  | BulkSetStart d =>
      mkBulk (showBulkEditModal b) d (bulkEndDate b) (bulkDailyData b) (bulkErrors b)
  | BulkSetEnd d =>
      mkBulk (showBulkEditModal b) (bulkStartDate b) d (bulkDailyData b) (bulkErrors b)
  | BulkOpen =>
      mkBulk true (bulkStartDate b) (bulkEndDate b) (bulkDailyData b) (bulkErrors b)
  | BulkCancel =>
      mkBulk false (bulkStartDate b) (bulkEndDate b) noOverrides noErrors
  end.

(** The bulk dialog as first rendered, [today] being [getTodayString()]. *)
Definition initialBulk (today : string) : BulkState :=
  mkBulk false today today noOverrides noErrors.

(** The states of the bulk dialog the user can bring about. *)
Inductive bulkReachable (today : string) : BulkState -> Prop :=
| BulkInitial : bulkReachable today (initialBulk today)
| BulkStepped b ev :
    bulkReachable today b -> bulkReachable today (bulkStep b ev)
| BulkSaved LocalTZA now profile b w :
    bulkReachable today b ->
    bulkReachable today (snd (fst (handleBulkSave LocalTZA now profile b w))).

(** An override of the bulk dialog is negative. *)
Definition negativeOverride (b : BulkState) : Prop :=
  exists f v, bulkDailyData b f = Some (Num v) /\ v < 0.

Definition emptyWorld : World := mkWorld ∅ [].

(** ** Vocabulary of the statements *)

(** [d1] is not later than [d2], both being dates. *)
Definition dateLe (d1 d2 : string) : Prop :=
  match getTime d1, getTime d2 with
  | Some t1, Some t2 => t1 <= t2
  | _, _ => False
  end.





(** Two records that differ at most in that the second spells out an absent
    [repiqueLeads] as [0]. *)
Inductive repiqueSpelledOut : DailyEntry -> DailyEntry -> Prop :=
| SpelledSame (e : DailyEntry) : repiqueSpelledOut e e
| SpelledZero (e : DailyEntry) :
    repiqueLeads e = None ->
    repiqueSpelledOut e
      (mkEntry (date e)
         (mkFields (newLeads e) (discardedLeads e) (Some 0) (localVisits e)
            (contactingLeads e) (inProgressLeads e) (scheduledLeads e)
            (negotiationLeads e) (creditAnalysisLeads e) (approvedLeads e)
            (signedLeads e) (discardReason e))).

(** The scenario of the specification: ten initial leads and two days of
    May 2024, stored out of order. *)
Definition scenarioProfile : BrokerProfile :=
  mkProfile "Ana" 10 None
    [ mkEntry "2024-05-02" (mkFields 0 0 None 0 0 0 0 0 0 0 1 None);
      mkEntry "2024-05-01" (mkFields 5 1 None 0 0 0 0 0 0 0 2 None) ].


(** What the ledger says about a day. *)
Definition balancesOf (a : LedgerEntry) : string * Z * Z :=
  (date a, startOfDayBalance a, endOfDayBalance a).

(** Each entry the loop hands to [onSaveEntry] is the merge of the overrides
    with the committed entry of its date. *)
Definition mergedEntry (profile : BrokerProfile)
  (data : CounterField -> option InputValue) (e : DailyEntry) : Prop :=
  e = updatedEntry data (findEntry profile (date e)) (date e).

(** A profile with one committed day that discarded three leads, and a bulk
    dialog that overrides [discardedLeads] with 0 on that day. *)
Definition staleProfile : BrokerProfile :=
  mkProfile "Ana" 10 None
    [ mkEntry "2024-05-01"
        (mkFields 5 3 (Some 0) 0 0 0 0 0 0 0 1 (Some "sem interesse")) ].

Definition staleBulk : BulkState :=
  fold_left bulkStep
    [BulkOpen; BulkSetStart "2024-05-01"; BulkSetEnd "2024-05-01";
     BulkTypeNumber DiscardedLeads (Num 0)]
    (initialBulk "2024-05-03").

(** The bulk dialog of the specification's scenario: the first three days of
    May 2024 with [signedLeads] overridden by 2. *)
Definition scenarioBulk : BulkState :=
  fold_left bulkStep
    [BulkOpen; BulkSetStart "2024-05-01"; BulkSetEnd "2024-05-03";
     BulkTypeNumber SignedLeads (Num 2)]
    (initialBulk "2024-05-03").

(** The days the loop names, from day number [first] on. *)
Definition datesFrom (first : Z) (count : nat) : list string :=
  map (fun i => formatISODate (YMDFromDay (first + Z.of_nat i))) (seq 0 count).

(** * Properties *)

(** ** Dates *)

Module JSDateFacts.

Lemma digit_range c v : digit c = Some v -> 0 <= v <= 9.
Proof.
  unfold digit. intros H.
  destruct (48 <=? Z.of_N (N_of_ascii c)) eqn:H1;
    destruct (Z.of_N (N_of_ascii c) <=? 57) eqn:H2; simpl in H;
    try discriminate.
  injection H as <-. lia.
Qed.

Lemma digit_compare c1 c2 v1 v2 :
  digit c1 = Some v1 -> digit c2 = Some v2 ->
  Ascii.compare c1 c2 = (v1 ?= v2).
Proof.
  unfold digit, Ascii.compare. intros H1 H2.
  destruct ((48 <=? Z.of_N (N_of_ascii c1)) && (Z.of_N (N_of_ascii c1) <=? 57));
    [injection H1 as <- | discriminate].
  destruct ((48 <=? Z.of_N (N_of_ascii c2)) && (Z.of_N (N_of_ascii c2) <=? 57));
    [injection H2 as <- | discriminate].
  rewrite <- N2Z.inj_compare.
  destruct (Z.compare_spec (Z.of_N (N_of_ascii c1)) (Z.of_N (N_of_ascii c2)));
    symmetry; [apply Z.compare_eq_iff | apply Z.compare_lt_iff
              | apply Z.compare_gt_iff]; lia.
Qed.


Lemma parseISODate_shape s d : parseISODate s = Some d -> isoShape s d.
Proof.
  intros H.
  destruct s as [|y1 [|y2 [|y3 [|y4 [|c1 s]]]]]; try discriminate H.
  unfold parseISODate in H.
  destruct c1 as [[] [] [] [] [] [] [] []]; try discriminate H.
  destruct s as [|m1 [|m2 [|c2 s]]]; try discriminate H.
  destruct c2 as [[] [] [] [] [] [] [] []]; try discriminate H.
  destruct s as [|d1 [|d2 [|]]]; try discriminate H.
  destruct (digit y1) as [a|] eqn:E1; [|discriminate H].
  destruct (digit y2) as [b|] eqn:E2; [|discriminate H].
  destruct (digit y3) as [c|] eqn:E3; [|discriminate H].
  destruct (digit y4) as [e|] eqn:E4; [|discriminate H].
  destruct (digit m1) as [f|] eqn:E5; [|discriminate H].
  destruct (digit m2) as [g|] eqn:E6; [|discriminate H].
  destruct (digit d1) as [h|] eqn:E7; [|discriminate H].
  destruct (digit d2) as [i|] eqn:E8; [|discriminate H].
  cbv zeta in H.
  destruct (validYMD _) eqn:V; [|discriminate H].
  injection H as <-.
  econstructor; eauto.
Qed.

(** String comparison of two well-formed dates is calendar comparison. *)
Lemma compare_dateKey s1 s2 d1 d2 :
  isoShape s1 d1 -> isoShape s2 d2 ->
  String.compare s1 s2 = (dateKey d1 ?= dateKey d2).
Proof.
  intros [y1 y2 y3 y4 m1 m2 a1 a2 a b c e f g h i -> A B C E F G H I -> _]
         [z1 z2 z3 z4 n1 n2 b1 b2 a' b' c' e' f' g' h' i' -> A' B' C' E' F' G' H' I' -> _].
  pose proof (digit_range _ _ A). pose proof (digit_range _ _ B).
  pose proof (digit_range _ _ C). pose proof (digit_range _ _ E).
  pose proof (digit_range _ _ F). pose proof (digit_range _ _ G).
  pose proof (digit_range _ _ H). pose proof (digit_range _ _ I).
  pose proof (digit_range _ _ A'). pose proof (digit_range _ _ B').
  pose proof (digit_range _ _ C'). pose proof (digit_range _ _ E').
  pose proof (digit_range _ _ F'). pose proof (digit_range _ _ G').
  pose proof (digit_range _ _ H'). pose proof (digit_range _ _ I').
  unfold dateKey; cbn [year month day String.compare].
  assert (Hd : Ascii.compare "-" "-" = Eq) by reflexivity.
  rewrite (digit_compare _ _ _ _ A A').
  destruct (Z.compare_spec a a') as [K|K|K];
    [subst a' | symmetry; apply Z.compare_lt_iff; lia
     | symmetry; apply Z.compare_gt_iff; lia].
  rewrite (digit_compare _ _ _ _ B B').
  destruct (Z.compare_spec b b') as [K|K|K];
    [subst b' | symmetry; apply Z.compare_lt_iff; lia
     | symmetry; apply Z.compare_gt_iff; lia].
  rewrite (digit_compare _ _ _ _ C C').
  destruct (Z.compare_spec c c') as [K|K|K];
    [subst c' | symmetry; apply Z.compare_lt_iff; lia
     | symmetry; apply Z.compare_gt_iff; lia].
  rewrite (digit_compare _ _ _ _ E E').
  destruct (Z.compare_spec e e') as [K|K|K];
    [subst e' | symmetry; apply Z.compare_lt_iff; lia
     | symmetry; apply Z.compare_gt_iff; lia].
  rewrite Hd.
  rewrite (digit_compare _ _ _ _ F F').
  destruct (Z.compare_spec f f') as [K|K|K];
    [subst f' | symmetry; apply Z.compare_lt_iff; lia
     | symmetry; apply Z.compare_gt_iff; lia].
  rewrite (digit_compare _ _ _ _ G G').
  destruct (Z.compare_spec g g') as [K|K|K];
    [subst g' | symmetry; apply Z.compare_lt_iff; lia
     | symmetry; apply Z.compare_gt_iff; lia].
  rewrite (digit_compare _ _ _ _ H H').
  destruct (Z.compare_spec h h') as [K|K|K];
    [subst h' | symmetry; apply Z.compare_lt_iff; lia
     | symmetry; apply Z.compare_gt_iff; lia].
  rewrite (digit_compare _ _ _ _ I I').
  destruct (Z.compare_spec i i') as [K|K|K];
    [subst i' | symmetry; apply Z.compare_lt_iff; lia
     | symmetry; apply Z.compare_gt_iff; lia].
  symmetry. apply Z.compare_refl.
Qed.

Lemma DayFromYear_succ y : DayFromYear (y + 1) = DayFromYear y + DaysInYear y.
Proof.
  unfold DayFromYear, DaysInYear, InLeapYear.
  destruct (Z.eqb_spec (y mod 4) 0), (Z.eqb_spec (y mod 100) 0),
    (Z.eqb_spec (y mod 400) 0); cbn [andb orb negb];
    Z.div_mod_to_equations; lia.
Qed.

Lemma DayFromYear_mono y1 y2 : y1 <= y2 -> DayFromYear y1 <= DayFromYear y2.
Proof.
  intros Hle. replace y2 with (y1 + Z.of_nat (Z.to_nat (y2 - y1))) by lia.
  induction (Z.to_nat (y2 - y1)) as [|n IH]; [rewrite Z.add_0_r; lia|].
  replace (y1 + Z.of_nat (S n)) with (y1 + Z.of_nat n + 1) by lia.
  rewrite DayFromYear_succ. unfold DaysInYear.
  destruct (InLeapYear _); lia.
Qed.

Lemma month_cases m : 1 <= m <= 12 ->
  m = 1 \/ m = 2 \/ m = 3 \/ m = 4 \/ m = 5 \/ m = 6 \/ m = 7 \/ m = 8
  \/ m = 9 \/ m = 10 \/ m = 11 \/ m = 12.
Proof. lia. Qed.

Lemma validYMD_bounds d : validYMD d = true ->
  1 <= month d <= 12 /\ 1 <= day d <= DaysInMonth (InLeapYear (year d)) (month d).
Proof. unfold validYMD. rewrite !andb_true_iff, !Z.leb_le. lia. Qed.

(** A date lies within its year. *)
Lemma MakeDay_in_year d : validYMD d = true ->
  DayFromYear (year d) <= MakeDay d < DayFromYear (year d + 1).
Proof.
  intros V. apply validYMD_bounds in V as [Hm Hd].
  rewrite DayFromYear_succ. unfold MakeDay, DaysInYear.
  destruct (InLeapYear (year d));
    destruct (month_cases _ Hm) as [E|[E|[E|[E|[E|[E|[E|[E|[E|[E|[E|E]]]]]]]]]]];
    rewrite E in *; cbn in *; lia.
Qed.

Lemma MakeDay_mono d1 d2 :
  validYMD d1 = true -> validYMD d2 = true ->
  dateKey d1 < dateKey d2 -> MakeDay d1 < MakeDay d2.
Proof.
  intros V1 V2 K.
  pose proof (MakeDay_in_year _ V1) as I1.
  pose proof (MakeDay_in_year _ V2) as I2.
  pose proof (validYMD_bounds _ V1) as [Hm1 Hd1].
  pose proof (validYMD_bounds _ V2) as [Hm2 Hd2].
  assert (Hd1' : day d1 <= 31)
    by (destruct (InLeapYear (year d1));
        destruct (month_cases _ Hm1) as [E|[E|[E|[E|[E|[E|[E|[E|[E|[E|[E|E]]]]]]]]]]];
        rewrite E in Hd1; cbn in Hd1; lia).
  assert (Hd2' : day d2 <= 31)
    by (destruct (InLeapYear (year d2));
        destruct (month_cases _ Hm2) as [E|[E|[E|[E|[E|[E|[E|[E|[E|[E|[E|E]]]]]]]]]]];
        rewrite E in Hd2; cbn in Hd2; lia).
  unfold dateKey in K.
  destruct (Z.lt_trichotomy (year d1) (year d2)) as [Y|[Y|Y]]; [| |lia].
  - pose proof (DayFromYear_mono (year d1 + 1) (year d2)). lia.
  - unfold MakeDay. rewrite Y in *.
    assert (M : month d1 < month d2 \/ (month d1 = month d2 /\ day d1 < day d2))
      by lia.
    destruct M as [M|[M D]]; [|rewrite M; lia].
    destruct (InLeapYear (year d2));
      destruct (month_cases _ Hm1) as [E|[E|[E|[E|[E|[E|[E|[E|[E|[E|[E|E]]]]]]]]]]];
      rewrite E in *;
      destruct (month_cases _ Hm2) as [F|[F|[F|[F|[F|[F|[F|[F|[F|[F|[F|F]]]]]]]]]]];
      rewrite F in *; cbn in *; lia.
Qed.

Lemma isoShape_valid s d : isoShape s d -> validYMD d = true.
Proof. now intros []. Qed.


(** On well-formed dates [<] on the strings agrees with the order of the
    time values. *)
Lemma ltb_getTime s1 s2 t1 t2 :
  getTime s1 = Some t1 -> getTime s2 = Some t2 ->
  String.ltb s1 s2 = (t1 <? t2).
Proof.
  unfold getTime. intros H1 H2.
  destruct (parseISODate s1) as [d1|] eqn:P1; [injection H1 as <-|discriminate].
  destruct (parseISODate s2) as [d2|] eqn:P2; [injection H2 as <-|discriminate].
  apply parseISODate_shape in P1, P2.
  unfold String.ltb. rewrite (compare_dateKey _ _ _ _ P1 P2).
  pose proof (isoShape_valid _ _ P1) as V1.
  pose proof (isoShape_valid _ _ P2) as V2.
  unfold msPerDay.
  destruct (Z.compare_spec (dateKey d1) (dateKey d2)) as [K|K|K].
  - assert (~ MakeDay d1 < MakeDay d2 /\ ~ MakeDay d2 < MakeDay d1).
    { destruct P1 as [? ? ? ? ? ? ? ? ? ? ? ? ? ? ? ? _ ? ? ? ? ? ? ? ? -> _].
      destruct P2 as [? ? ? ? ? ? ? ? ? ? ? ? ? ? ? ? _ ? ? ? ? ? ? ? ? -> _].
      repeat match goal with
             | H : digit _ = Some _ |- _ => apply digit_range in H
             end.
      unfold dateKey in K; cbn [year month day] in K.
      unfold MakeDay; cbn [year month day].
      assert (Ey : 1000 * a + 100 * b + 10 * c + e = 1000 * a0 + 100 * b0 + 10 * c0 + e0) by lia.
      assert (Em : 10 * f + g = 10 * f0 + g0) by lia.
      assert (Ed : 10 * h + i = 10 * h0 + i0) by lia.
      rewrite Ey, Em, Ed. lia. }
    symmetry. apply Z.ltb_ge. lia.
  - pose proof (MakeDay_mono _ _ V1 V2 K). symmetry. apply Z.ltb_lt. lia.
  - pose proof (MakeDay_mono _ _ V2 V1 K). symmetry. apply Z.ltb_ge. lia.
Qed.

End JSDateFacts.

Import JSDateFacts.

(** ** Ledger Builder *)

Section Sorting.

Context {A : Type} (cmp : A -> A -> Z).



(** Sorting commutes with a change of the records that the comparator does
    not see. *)
Section Unseen.

Variable R : A -> A -> Prop.
Hypothesis cmp_unseen :
  forall a a' b b', R a a' -> R b b' -> cmp a b = cmp a' b'.

Lemma insertSorted_Forall2 x x' l l' :
  R x x' -> Forall2 R l l' ->
  Forall2 R (insertSorted cmp x l) (insertSorted cmp x' l').
Proof.
  intros Hx Hl. induction Hl as [|y y' l l' Hy Hl IH]; simpl.
  - repeat constructor; assumption.
  - rewrite (cmp_unseen _ _ _ _ Hx Hy).
    destruct (cmp x' y' <=? 0); repeat constructor; assumption.
Qed.

Lemma sort_Forall2 l l' :
  Forall2 R l l' -> Forall2 R (sort cmp l) (sort cmp l').
Proof.
  intros Hl. induction Hl; simpl; [constructor|].
  apply insertSorted_Forall2; assumption.
Qed.

End Unseen.

End Sorting.


Lemma validDate_getTime d :
  validDate d = true -> exists t, getTime d = Some t.
Proof.
  unfold validDate, getTime. destruct (parseISODate d); [eauto|discriminate].
Qed.













(** The memo hands the ledger out most recent day first. *)
Lemma entriesWithCalculatedBalances_rev profile :
  rev (entriesWithCalculatedBalances profile) = entriesWithBalance profile.
Proof. apply rev_involutive. Qed.

(** The scenario of the specification: day 1 runs from 10 to 12, day 2 from
    12 to 11. *)
Example scenario_ledger :
  map (fun a : LedgerEntry => (date a, startOfDayBalance a, endOfDayBalance a))
      (entriesWithBalance scenarioProfile)
  = [("2024-05-01", 10, 12); ("2024-05-02", 12, 11)].
Proof. reflexivity. Qed.

(** ** An absent [repiqueLeads] *)

Lemma repiqueSpelledOut_date e e' : repiqueSpelledOut e e' -> date e' = date e.
Proof. now intros []. Qed.

Lemma repiqueSpelledOut_step b e e' :
  repiqueSpelledOut e e' -> nextLeadBase b e' = nextLeadBase b e.
Proof. intros [|? H]; [reflexivity|]. unfold nextLeadBase; simpl. now rewrite H. Qed.

Lemma repiqueSpelledOut_compare a a' b b' :
  repiqueSpelledOut a a' -> repiqueSpelledOut b b' ->
  compareByDate a b = compareByDate a' b'.
Proof.
  intros Ha Hb. unfold compareByDate.
  now rewrite (repiqueSpelledOut_date _ _ Ha), (repiqueSpelledOut_date _ _ Hb).
Qed.

Lemma withBalances_spelledOut b l l' :
  Forall2 repiqueSpelledOut l l' ->
  map balancesOf (withBalances b l') = map balancesOf (withBalances b l).
Proof.
  intros H. revert b. induction H as [|e e' l l' He Hl IH]; intros b; simpl;
    [reflexivity|].
  unfold balancesOf at 1 3; simpl.
  rewrite (repiqueSpelledOut_step _ _ _ He), (repiqueSpelledOut_date _ _ He).
  now rewrite IH.
Qed.

Lemma cumulatePrevious_spelledOut bound b l l' :
  Forall2 repiqueSpelledOut l l' ->
  cumulatePrevious bound b l' = cumulatePrevious bound b l.
Proof.
  intros H. revert b. induction H as [|e e' l l' He Hl IH]; intros b; simpl;
    [reflexivity|].
  rewrite (repiqueSpelledOut_date _ _ He), (repiqueSpelledOut_step _ _ _ He).
  now rewrite IH.
Qed.

Lemma monthEntriesOf_spelledOut m l l' :
  Forall2 repiqueSpelledOut l l' ->
  Forall2 repiqueSpelledOut (monthEntriesOf m l) (monthEntriesOf m l').
Proof.
  intros H. induction H as [|e e' l l' He Hl IH]; simpl; [constructor|].
  rewrite (repiqueSpelledOut_date _ _ He).
  destruct (String.prefix m (date e)); [constructor|]; assumption.
Qed.

Lemma sumOf_Forall2 (R : DailyEntry -> DailyEntry -> Prop) f l l' :
  (forall e e', R e e' -> f e' = f e) ->
  Forall2 R l l' -> sumOf f l' = sumOf f l.
Proof.
  intros Hf H. unfold sumOf. generalize 0.
  induction H as [|e e' l l' He Hl IH]; intros a; simpl; [reflexivity|].
  now rewrite (Hf _ _ He), IH.
Qed.

(** C2. An entry whose [repiqueLeads] is absent is treated, by the ledger
    fold and by the monthly sums alike, as the same entry with
    [repiqueLeads] set to 0: spelling the zero out in any of the entries
    changes no balance of the ledger and nothing in the summary of any
    month. *)
Theorem absent_repique_counts_as_zero (profile profile' : BrokerProfile)
  (selectedMonth : string) :
  initialLeads profile' = initialLeads profile ->
  Forall2 repiqueSpelledOut (dailyEntries profile) (dailyEntries profile') ->
  map balancesOf (entriesWithBalance profile')
  = map balancesOf (entriesWithBalance profile)
  /\ monthlySummary profile' selectedMonth = monthlySummary profile selectedMonth.
Proof.
  intros Hi Hl.
  assert (Hs : Forall2 repiqueSpelledOut (chronologicalEntries profile)
                 (chronologicalEntries profile')).
  { apply sort_Forall2; [apply repiqueSpelledOut_compare | exact Hl]. }
  split.
  - unfold entriesWithBalance. rewrite Hi. now apply withBalances_spelledOut.
  - pose proof (monthEntriesOf_spelledOut selectedMonth _ _ Hs) as Hm.
    unfold monthlySummary. rewrite Hi.
    rewrite (cumulatePrevious_spelledOut _ _ _ _ Hs).
    assert (S : forall f, (forall e e', repiqueSpelledOut e e' -> f e' = f e) ->
              sumOf f (monthEntriesOf selectedMonth (chronologicalEntries profile'))
              = sumOf f (monthEntriesOf selectedMonth (chronologicalEntries profile)))
      by (intros f Hf; eapply sumOf_Forall2; eauto).
    rewrite (S (fun e => newLeads e)), (S (fun e => orZero (repiqueLeads e))),
      (S (fun e => signedLeads e)), (S (fun e => discardedLeads e)),
      (S (fun e => negotiationLeads e));
      [reflexivity|..]; intros e e' [|? E]; simpl; rewrite ?E; reflexivity.
Qed.

Lemma absent_repique_counts_as_zero_witness :
  let profile' :=
    mkProfile "Ana" 10 None
      [ mkEntry "2024-05-02" (mkFields 0 0 (Some 0) 0 0 0 0 0 0 0 1 None);
        mkEntry "2024-05-01" (mkFields 5 1 None 0 0 0 0 0 0 0 2 None) ] in
  map balancesOf (entriesWithBalance profile')
  = map balancesOf (entriesWithBalance scenarioProfile)
  /\ monthlySummary profile' "2024-05" = monthlySummary scenarioProfile "2024-05".
Proof.
  apply absent_repique_counts_as_zero; [reflexivity|].
  constructor; [|constructor; constructor].
  exact (SpelledZero (mkEntry "2024-05-02" (mkFields 0 0 None 0 0 0 0 0 0 0 1 None))
           eq_refl).
Defined.

(** ** Monthly Aggregator *)
















(** The month-boundary scenario of the specification, and the month after
    it, which has no entries and carries the balance 11 forward. *)
Example scenario_summary :
  monthlySummary scenarioProfile "2024-05"
  = Summary.mk 5 0 3 1 (Some "60.0") 0 10 11
  /\ monthlySummary scenarioProfile "2024-06"
     = Summary.mk 0 0 0 0 (Some "0.0") 0 11 11.
Proof. split; vm_compute; reflexivity. Qed.

(** ** Edit Reconciler: the read path *)

Lemma loadEffect_selectedDate profile storage st :
  selectedDate (loadEffect profile storage st) = selectedDate st.
Proof.
  unfold loadEffect. cbv zeta.
  match goal with
  | |- selectedDate (let '(_, _) := ?x in _) = _ => now destruct x
  end.
Qed.

Lemma loadEffect_no_draft profile storage st :
  storage !! getDraftKey profile (selectedDate st) = None ->
  (dailyData (loadEffect profile storage st), isDraft (loadEffect profile storage st))
  = entryOrDefault (findEntry profile (selectedDate st)).
Proof.
  intros H. unfold loadEffect. rewrite H. cbn [truthyItem].
  now destruct (entryOrDefault _).
Qed.


(** The draft wins over a committed entry of the same date. *)
Example draft_wins :
  let profile := scenarioProfile in
  let draft := mkFields 7 0 (Some 0) 0 0 0 0 0 0 0 0 (Some "") in
  let storage : gmap string StoredItem :=
    {[ getDraftKey profile "2024-05-01" := Json draft ]} in
  let loaded := loadEffect profile storage (mkForm initialState "2024-05-01" noErrors false) in
  findEntry profile "2024-05-01" <> None
  /\ dailyData loaded = draft /\ isDraft loaded = true.
Proof. vm_compute. repeat split. discriminate. Qed.



(** C10. Selecting a date makes the auto-save effect write the loaded data
    to the draft cache at once and mark the form as an unsaved draft,
    without any edit by the user and whatever the data was loaded from: in
    particular a date that had no draft has one afterwards. *)
Theorem autosave_after_load (profile : BrokerProfile) (d : string)
  (storage : gmap string StoredItem) (st : FormState) :
  let loaded := loadEffect profile storage
                  (mkForm (dailyData st) d (errors st) (isDraft st)) in
  let result := selectDate profile d storage st in
  dailyData (fst result) = dailyData loaded
  /\ isDraft (fst result) = true
  /\ snd result !! getDraftKey profile d = Some (Json (dailyData loaded))
  /\ (storage !! getDraftKey profile d = None ->
      isDraft loaded = false
      /\ snd result !! getDraftKey profile d
         = Some (Json (fst (entryOrDefault (findEntry profile d))))).
Proof.
  intros loaded result. subst loaded result.
  unfold selectDate, saveDraftEffect. cbn [fst snd dailyData isDraft selectedDate].
  pose proof (loadEffect_selectedDate profile storage
                (mkForm (dailyData st) d (errors st) (isDraft st))) as E.
  cbn [selectedDate] in E.
  rewrite E, lookup_insert_eq. repeat split.
  - pose proof (loadEffect_no_draft profile storage
                  (mkForm (dailyData st) d (errors st) (isDraft st)) H) as L.
    cbn [selectedDate] in L. unfold entryOrDefault in L.
    destruct (findEntry profile d); now injection L.
  - pose proof (loadEffect_no_draft profile storage
                  (mkForm (dailyData st) d (errors st) (isDraft st)) H) as L.
    cbn [selectedDate] in L. rewrite <- L. reflexivity.
Qed.

(** A date of the scenario without a draft: selecting it stores the committed
    entry as a draft and raises the draft flag. *)
Example selecting_creates_draft :
  let result :=
    selectDate scenarioProfile "2024-05-01" ∅
      (mkForm initialState "2024-05-02" noErrors false) in
  isDraft (fst result) = true
  /\ snd result !! getDraftKey scenarioProfile "2024-05-01"
     = Some (Json (mkFields 5 1 (Some 0) 0 0 0 0 0 0 0 2 (Some ""))).
Proof. vm_compute. split; reflexivity. Qed.

(** ** Edit Reconciler: validation *)

Lemma In_fieldOrder f : In f fieldOrder.
Proof. destruct f; simpl; tauto. Qed.

Lemma hasActiveErrors_intro errs f : errs f = true -> hasActiveErrors errs = true.
Proof.
  intros H. apply existsb_exists. exists f. split; [apply In_fieldOrder|exact H].
Qed.

Lemma formStep_selectedDate evs st :
  selectedDate (fold_left formStep evs st) = selectedDate st.
Proof.
  revert st. induction evs as [|ev evs IH]; intros st; simpl; [reflexivity|].
  rewrite IH. now destruct ev.
Qed.

(** A field whose last typed number is negative is flagged. *)
Lemma negative_input_flagged f evs : forall st shown v,
  (forall w, shown = Some (Num w) -> w < 0 -> errors st f = true) ->
  fold_left (fun shown ev =>
               match ev with
               | TypeNumber g value => if decide (g = f) then Some value else shown
               | TypeReason _ => shown
               end) evs shown = Some (Num v) ->
  v < 0 -> errors (fold_left formStep evs st) f = true.
Proof.
  induction evs as [|ev evs IH]; intros st shown v Inv; simpl.
  - intros -> Hv. eauto.
  - apply IH. destruct ev as [g value|text]; simpl; [|exact Inv].
    unfold setKey. destruct (decide (g = f)) as [->|Hne].
    + intros w [= ->] Hw. destruct (w <? 0) eqn:C; [|lia].
      now destruct (decide (f = f)).
    + intros w Hs Hw. specialize (Inv w Hs Hw).
      destruct value as [u|]; [destruct (u <? 0)|];
        (destruct (decide (f = g)); [congruence|exact Inv]).
Qed.

(** Every negative override of a reachable bulk dialog is flagged. *)
Lemma bulk_negative_flagged today b :
  bulkReachable today b ->
  forall f v, bulkDailyData b f = Some (Num v) -> v < 0 -> bulkErrors b f = true.
Proof.
  induction 1 as [|b ev R IH|tz now profile b w R IH]; intros f v.
  - discriminate.
  - destruct ev as [g value| | | |]; simpl; try apply IH; [|discriminate].
    unfold setKey. destruct (decide (f = g)) as [->|Hne].
    + intros [= ->] Hv. destruct (v <? 0) eqn:C; [|lia].
      now destruct (decide (g = g)).
    + intros Hs Hv. specialize (IH f v Hs Hv).
      destruct value as [u|]; [destruct (u <? 0)|];
        (destruct (decide (f = g)); [congruence|exact IH]).
  - unfold handleBulkSave.
    repeat match goal with
           | |- context [if ?c then _ else _] => destruct c
           end; simpl; try apply IH; discriminate.
Qed.

(** C7. A commit attempt is refused, with a validation alert and with no
    call of [onSaveEntry] nor any change of the draft cache or of the form,
    when the number last typed into some field of the day form is negative
    or the date of the form is after today, and when the bulk dialog has a
    boundary after today, a start after its end, or a negative override. *)
Theorem invalid_commit_writes_nothing :
  (forall today profile st0 evs w,
     let st := fold_left formStep evs st0 in
     String.ltb today (selectedDate st) = true
     \/ (exists f v, lastTyped f evs = Some (Num v) /\ v < 0) ->
     exists alert,
       handleSubmit today profile st w = (alert, st, w) /\ alert <> AlertSaved)
  /\ (forall LocalTZA today opened profile b w,
        bulkReachable opened b ->
        String.ltb today (bulkStartDate b) = true
        \/ String.ltb today (bulkEndDate b) = true
        \/ String.ltb (bulkEndDate b) (bulkStartDate b) = true
        \/ negativeOverride b ->
        exists alert,
          handleBulkSave LocalTZA today profile b w = (alert, b, w)
          /\ alert <> AlertBulkSaved).
Proof.
  split.
  - intros today profile st0 evs w st H. unfold handleSubmit.
    destruct (String.eqb (selectedDate st) ""); [eexists; split; [reflexivity|discriminate]|].
    destruct (String.ltb today (selectedDate st)) eqn:L;
      [eexists; split; [reflexivity|discriminate]|].
    destruct H as [H|(f & v & Hl & Hv)]; [discriminate|].
    assert (E : errors st f = true).
    { subst st. eapply negative_input_flagged; [|exact Hl|exact Hv]. discriminate. }
    rewrite (hasActiveErrors_intro _ _ E).
    eexists; split; [reflexivity|discriminate].
  - intros tz today opened profile b w R H. unfold handleBulkSave.
    destruct (String.eqb (bulkStartDate b) ""); [eexists; split; [reflexivity|discriminate]|].
    destruct (String.eqb (bulkEndDate b) ""); [eexists; split; [reflexivity|discriminate]|].
    destruct (String.ltb today (bulkStartDate b)) eqn:L1;
      [eexists; split; [reflexivity|discriminate]|].
    destruct (String.ltb today (bulkEndDate b)) eqn:L2;
      [eexists; split; [reflexivity|discriminate]|].
    destruct (String.ltb (bulkEndDate b) (bulkStartDate b)) eqn:L3;
      [eexists; split; [reflexivity|discriminate]|].
    destruct H as [H|[H|[H|(f & v & Hs & Hv)]]]; try discriminate.
    rewrite (hasActiveErrors_intro _ _ (bulk_negative_flagged _ _ R f v Hs Hv)).
    eexists; split; [reflexivity|discriminate].
Qed.

(** The validation scenario of the specification: [discardedLeads: -1] typed
    into the day form is refused and nothing is written. *)
Example negative_discarded_refused :
  let st := fold_left formStep [TypeNumber DiscardedLeads (Num (-1))]
              (mkForm initialState "2024-05-01" noErrors false) in
  handleSubmit "2024-05-03" scenarioProfile st emptyWorld
  = (AlertFixErrors, st, emptyWorld).
Proof. reflexivity. Qed.

(** The number stored in the form is never negative. *)
Lemma handleNumberChange_sanitises f value st :
  exists v, getCounter f (dailyData (handleNumberChange f value st)) = Some v
            /\ 0 <= v.
Proof.
  unfold handleNumberChange. cbn [dailyData].
  exists (match value with Blank => 0 | Num v => Z.max 0 v end).
  split; [now destruct f|destruct value; lia].
Qed.

(** ** Edit Reconciler: commits *)

(** What a committed day entry looks like. *)
Lemma handleSubmit_log today profile st w :
  let w' := snd (handleSubmit today profile st w) in
  savedEntries w' = savedEntries w
  \/ savedEntries w'
     = (savedEntries w ++ [mkEntry (selectedDate st) (finalData (dailyData st))])%list.
Proof.
  unfold handleSubmit.
  destruct (String.eqb _ _); [now left|].
  destruct (String.ltb _ _); [now left|].
  destruct (hasActiveErrors _); [now left|now right].
Qed.

Lemma finalData_reason d :
  discardedLeads (finalData d) = 0 -> discardReason (finalData d) = Some "".
Proof.
  unfold finalData. destruct (Z.eqb_spec (discardedLeads d) 0); simpl; congruence.
Qed.

(** The loop runs to its end on the fuel [handleBulkSave] gives it. *)
Lemma bulkLoop_terminates fuel profile data currentDate endDate w :
  (endDate - currentDate) / msPerDay + 1 <= Z.of_nat fuel ->
  exists w', bulkLoop fuel profile data currentDate endDate w = Some w'.
Proof.
  revert currentDate w. induction fuel as [|fuel IH]; intros currentDate w Hf;
    simpl; destruct (Z.leb_spec currentDate endDate) as [Hle|Hgt]; eauto.
  - exfalso. unfold msPerDay in Hf.
    assert (0 <= (endDate - currentDate) / 86400000)
      by (apply Z.div_pos; lia). lia.
  - apply IH. unfold nextLocalDay, msPerDay in *.
    replace (endDate - (currentDate + 86400000))
      with (endDate - currentDate + (-1) * 86400000) by lia.
    rewrite Z.div_add by lia. lia.
Qed.

(** [handleBulkSave] never stops the loop for lack of fuel. *)
Lemma bulkFuel_enough profile data currentDate endDate w :
  exists w',
    bulkLoop (bulkFuel currentDate endDate) profile data currentDate endDate w
    = Some w'.
Proof.
  apply bulkLoop_terminates. unfold bulkFuel. lia.
Qed.

Lemma bulkLoop_log fuel profile data :
  forall currentDate endDate w w',
    bulkLoop fuel profile data currentDate endDate w = Some w' ->
    exists written,
      savedEntries w' = (savedEntries w ++ written)%list
      /\ Forall (mergedEntry profile data) written.
Proof.
  induction fuel as [|fuel IH]; intros currentDate endDate w w'; simpl;
    destruct (currentDate <=? endDate); try discriminate.
  - intros [= <-]. exists []. now rewrite app_nil_r.
  - intros H. apply IH in H as (written & E & F). cbn [savedEntries] in E.
    eexists (_ :: written). rewrite E, <- app_assoc. split; [reflexivity|].
    constructor; [reflexivity|exact F].
  - intros [= <-]. exists []. now rewrite app_nil_r.
Qed.

Lemma handleBulkSave_log LocalTZA today profile b w :
  exists written,
    savedEntries (snd (handleBulkSave LocalTZA today profile b w))
    = (savedEntries w ++ written)%list
    /\ Forall (mergedEntry profile (bulkDailyData b)) written.
Proof.
  assert (N : exists written, savedEntries w = (savedEntries w ++ written)%list
              /\ Forall (mergedEntry profile (bulkDailyData b)) written)
    by (exists []; now rewrite app_nil_r).
  unfold handleBulkSave.
  repeat match goal with
         | |- context [if ?c then _ else _] => destruct c
         end; try exact N.
  cbn [snd].
  destruct (localMidnight _ (bulkStartDate b)) as [currentDate|]; [|exact N].
  destruct (localMidnight _ (bulkEndDate b)) as [endDate|]; [|exact N].
  destruct (bulkLoop _ _ _ _ _ _) as [w'|] eqn:L; [|exact N].
  eapply bulkLoop_log; exact L.
Qed.

(** The counters of a merged entry: the override when one was given, a zero
    included; else the value of the committed entry; else 0. *)
Lemma updatedEntry_counters data existingEntry d f :
  getCounter f (updatedEntry data existingEntry d)
  = Some match data f with
         | Some (Num v) => v
         | _ => match existingEntry with
                | Some e => orZero (getCounter f e)
                | None => 0
                end
         end.
Proof. now destruct f. Qed.

Lemma updatedEntry_reason data existingEntry d :
  discardReason (updatedEntry data existingEntry d)
  = Some match existingEntry with
         | Some e => orEmpty (discardReason e)
         | None => ""
         end.
Proof. reflexivity. Qed.

(** C5, as stated, fails on the bulk path: west of Greenwich (UTC-3), a bulk
    commit that sets [discardedLeads] to 0 on 2024-05-01 writes an entry with
    [discardedLeads = 0] that still carries the reason of the committed
    entry. *)
Lemma bulk_commit_keeps_stale_reason :
  savedEntries
    (snd (handleBulkSave (-10800000) "2024-05-03" staleProfile staleBulk emptyWorld))
  = [ mkEntry "2024-05-01"
        (mkFields 5 0 (Some 0) 0 0 0 0 0 0 0 1 (Some "sem interesse")) ].
Proof. vm_compute. reflexivity. Qed.

(** C5, amended. A single-day commit writes an empty [discardReason]
    whenever the committed [discardedLeads] is 0, whatever text the form
    held.  A bulk commit does not clean the reason: every entry it writes
    carries the reason of the committed entry of its date, or the empty
    string on a date without one. *)
Theorem discard_reason_on_commit :
  (forall today profile st w,
     let w' := snd (handleSubmit today profile st w) in
     savedEntries w' = savedEntries w
     \/ exists e : DailyEntry,
          savedEntries w' = (savedEntries w ++ [e])%list
          /\ (discardedLeads e = 0 -> discardReason e = Some ""))
  /\ (forall LocalTZA today profile b w,
        exists written,
          savedEntries (snd (handleBulkSave LocalTZA today profile b w))
          = (savedEntries w ++ written)%list
          /\ Forall (fun e : DailyEntry =>
                       discardReason e
                       = Some match findEntry profile (date e) with
                              | Some x => orEmpty (discardReason x)
                              | None => ""
                              end) written).
Proof.
  split.
  - intros today profile st w w'.
    destruct (handleSubmit_log today profile st w) as [H|H]; [now left|right].
    eexists. split; [exact H|]. apply finalData_reason.
  - intros tz today profile b w.
    destruct (handleBulkSave_log tz today profile b w) as (written & E & F).
    exists written. split; [exact E|].
    eapply List.Forall_impl; [|exact F].
    intros e He. rewrite He at 1. apply updatedEntry_reason.
Qed.

(** The cleanup scenario of the specification: a reason typed while
    [discardedLeads] was positive is dropped when the day is committed with
    [discardedLeads = 0]. *)
Example stale_reason_cleaned :
  let st := fold_left formStep
              [TypeNumber DiscardedLeads (Num 2); TypeReason "duplicado";
               TypeNumber DiscardedLeads (Num 0)]
              (mkForm initialState "2024-05-01" noErrors false) in
  discardReason (dailyData st) = Some "duplicado"
  /\ map (fun e : DailyEntry => (discardedLeads e, discardReason e))
       (savedEntries (snd (handleSubmit "2024-05-03" scenarioProfile st emptyWorld)))
     = [(0, Some "")].
Proof. split; reflexivity. Qed.

(** West of Greenwich (UTC-3) the scenario writes the three days of the
    range, the committed days keeping their other counters and the new day
    being zero but for the override. *)
Example bulk_scenario_west_of_UTC :
  savedEntries
    (snd (handleBulkSave (-10800000) "2024-05-03" scenarioProfile scenarioBulk
            emptyWorld))
  = [ mkEntry "2024-05-01" (mkFields 5 1 (Some 0) 0 0 0 0 0 0 0 2 (Some ""));
      mkEntry "2024-05-02" (mkFields 0 0 (Some 0) 0 0 0 0 0 0 0 2 (Some ""));
      mkEntry "2024-05-03" (mkFields 0 0 (Some 0) 0 0 0 0 0 0 0 2 (Some "")) ].
Proof. vm_compute. reflexivity. Qed.

(** C6 fails east of Greenwich.  One hour east of UTC the same bulk commit
    over 2024-05-01 .. 2024-05-03 writes 2024-04-30, 2024-05-01 and
    2024-05-02: the loop walks local midnights but names each day by its UTC
    date, so the last day of the range is skipped and the day before the
    range is written. *)
Lemma bulk_range_shifted_east_of_UTC :
  map date
    (savedEntries
       (snd (handleBulkSave 3600000 "2024-05-03" scenarioProfile scenarioBulk
               emptyWorld)))
  = ["2024-04-30"; "2024-05-01"; "2024-05-02"].
Proof. vm_compute. reflexivity. Qed.

(** ** The bulk loop and the host's time zone *)

Module JSLocalFacts.

Lemma YearFromDay_spec k :
  DayFromYear (YearFromDay k) <= k < DayFromYear (YearFromDay k + 1).
Proof.
  unfold YearFromDay.
  set (y := 1970 + 400 * k / 146097).
  assert (B : DayFromYear (y - 1) <= k < DayFromYear (y + 2)).
  { subst y. unfold DayFromYear. Z.div_mod_to_equations. lia. }
  destruct (Z.leb_spec (DayFromYear (y + 1)) k) as [H1|H1].
  - replace (y + 1 + 1) with (y + 2) by lia. lia.
  - destruct (Z.leb_spec (DayFromYear y) k) as [H2|H2]; [lia|].
    replace (y - 1 + 1) with y by lia. lia.
Qed.

Lemma year_unique k y y' :
  DayFromYear y <= k < DayFromYear (y + 1) ->
  DayFromYear y' <= k < DayFromYear (y' + 1) -> y = y'.
Proof.
  intros H H'.
  destruct (Z.lt_trichotomy y y') as [L|[E|G]]; [|exact E|].
  - pose proof (DayFromYear_mono (y + 1) y'). lia.
  - pose proof (DayFromYear_mono (y' + 1) y). lia.
Qed.

Lemma YearFromDay_MakeDay x :
  validYMD x = true -> YearFromDay (MakeDay x) = year x.
Proof.
  intros V. eapply year_unique; [apply YearFromDay_spec|].
  now apply MakeDay_in_year.
Qed.


Ltac decide_month :=
  unfold MonthFromDayInYear, DaysBeforeMonth;
  repeat match goal with
         | |- context [?a <? ?b] => destruct (Z.ltb_spec a b); try lia
         end.

Lemma MonthFromDayInYear_inv leap m d :
  1 <= m <= 12 -> 1 <= d <= DaysInMonth leap m ->
  MonthFromDayInYear leap (DaysBeforeMonth leap m + (d - 1)) = m.
Proof.
  intros Hm Hd.
  destruct leap;
    destruct (month_cases _ Hm) as [E|[E|[E|[E|[E|[E|[E|[E|[E|[E|[E|E]]]]]]]]]]];
    subst m; cbn [DaysInMonth] in Hd; cbn [DaysBeforeMonth]; decide_month.
Qed.

Lemma YMDFromDay_MakeDay x : validYMD x = true -> YMDFromDay (MakeDay x) = x.
Proof.
  intros V. pose proof (validYMD_bounds _ V) as [Hm Hd].
  unfold YMDFromDay. rewrite (YearFromDay_MakeDay _ V).
  replace (MakeDay x - DayFromYear (year x))
    with (DaysBeforeMonth (InLeapYear (year x)) (month x) + (day x - 1))
    by (unfold MakeDay; lia).
  rewrite (MonthFromDayInYear_inv _ _ _ Hm Hd).
  destruct x as [y m d]; cbn [year month day]. f_equal. lia.
Qed.

Lemma MakeDay_YMDFromDay k : MakeDay (YMDFromDay k) = k.
Proof. unfold MakeDay, YMDFromDay; cbn [year month day]. lia. Qed.

Lemma YMDFromDay_valid k : validYMD (YMDFromDay k) = true.
Proof.
  pose proof (YearFromDay_spec k) as [Hlo Hhi].
  rewrite DayFromYear_succ in Hhi. unfold DaysInYear in Hhi.
  unfold validYMD, YMDFromDay; cbn [year month day].
  set (y := YearFromDay k) in *. set (t := k - DayFromYear y).
  assert (Ht : 0 <= t < (if InLeapYear y then 366 else 365)) by (subst t; lia).
  clearbody t. clear Hlo Hhi.
  rewrite !andb_true_iff, !Z.leb_le.
  destruct (InLeapYear y); decide_month; cbn [DaysInMonth]; lia.
Qed.


Lemma digit_digitChar n : digit (digitChar n) = Some (n mod 10).
Proof.
  unfold digit, digitChar.
  pose proof (Z.mod_pos_bound n 10 ltac:(lia)) as B.
  rewrite N_ascii_embedding by lia.
  rewrite Z2N.id by lia.
  replace (48 <=? 48 + n mod 10) with true by (symmetry; apply Z.leb_le; lia).
  replace (48 + n mod 10 <=? 57) with true by (symmetry; apply Z.leb_le; lia).
  cbn [andb]. f_equal. lia.
Qed.

Lemma digitChar_digit c v n : digit c = Some v -> n mod 10 = v -> digitChar n = c.
Proof.
  unfold digit, digitChar. intros H <-.
  destruct (48 <=? Z.of_N (N_of_ascii c)) eqn:H1;
    destruct (Z.of_N (N_of_ascii c) <=? 57) eqn:H2; simpl in H; try discriminate.
  injection H as H. rewrite Z.leb_le in H1, H2.
  rewrite <- (ascii_N_embedding c). f_equal. lia.
Qed.

(** Rendering the date parsed from a well-formed string gives the string
    back. *)
Lemma format_parse s x : parseISODate s = Some x -> formatISODate x = s.
Proof.
  intros H. apply parseISODate_shape in H.
  destruct H as [y1 y2 y3 y4 m1 m2 d1 d2 a b c e f g h i -> A B C E F G H I -> _].
  pose proof (digit_range _ _ A). pose proof (digit_range _ _ B).
  pose proof (digit_range _ _ C). pose proof (digit_range _ _ E).
  pose proof (digit_range _ _ F). pose proof (digit_range _ _ G).
  pose proof (digit_range _ _ H). pose proof (digit_range _ _ I).
  unfold formatISODate; cbn [year month day].
  replace ((0 <=? 1000 * a + 100 * b + 10 * c + e)
           && (1000 * a + 100 * b + 10 * c + e <=? 9999)) with true
    by (symmetry; apply andb_true_iff; rewrite !Z.leb_le; lia).
  unfold pad4, pad2. cbn [String.append].
  rewrite (digitChar_digit y1 a), (digitChar_digit y2 b), (digitChar_digit y3 c),
    (digitChar_digit y4 e), (digitChar_digit m1 f), (digitChar_digit m2 g),
    (digitChar_digit d1 h), (digitChar_digit d2 i);
    try assumption; try reflexivity; Z.div_mod_to_equations; lia.
Qed.

(** Parsing the rendering of a calendar date of a four-digit year gives the
    date back. *)
Lemma parse_format x :
  validYMD x = true -> 0 <= year x <= 9999 ->
  parseISODate (formatISODate x) = Some x.
Proof.
  intros V Hy. pose proof (validYMD_bounds _ V) as [Hm Hd].
  assert (Hd' : day x <= 31).
  { destruct (InLeapYear (year x));
      destruct (month_cases _ Hm) as [E|[E|[E|[E|[E|[E|[E|[E|[E|[E|[E|E]]]]]]]]]]];
      rewrite E in Hd; cbn in Hd; lia. }
  unfold formatISODate.
  replace ((0 <=? year x) && (year x <=? 9999)) with true
    by (symmetry; apply andb_true_iff; rewrite !Z.leb_le; lia).
  unfold pad4, pad2, parseISODate. cbv beta iota delta [String.append].
  rewrite !digit_digitChar. cbv zeta.
  match goal with
  | |- (if validYMD ?r then _ else _) = _ => replace r with x
  end.
  - now rewrite V.
  - destruct x as [y m d]; cbn [year month day] in *. f_equal;
      Z.div_mod_to_equations; lia.
Qed.

End JSLocalFacts.

Import JSLocalFacts.

Lemma datesFrom_succ first count :
  datesFrom first (S count)
  = formatISODate (YMDFromDay first) :: datesFrom (first + 1) count.
Proof.
  unfold datesFrom. cbn [seq map]. rewrite Z.add_0_r. f_equal.
  rewrite <- seq_shift, map_map. apply map_ext. intros i. do 2 f_equal. lia.
Qed.

(** The loop names the days by their UTC dates: those of the range when the
    zone is at or west of Greenwich, those of the range moved one day back
    when it is east of it. *)
Lemma bulkLoop_dates LocalTZA profile data lastDay :
  forall fuel firstDay w w',
    bulkLoop fuel profile data (firstDay * msPerDay - LocalTZA)
      (lastDay * msPerDay - LocalTZA) w = Some w' ->
    exists written,
      savedEntries w' = (savedEntries w ++ written)%list
      /\ map date written
         = datesFrom (firstDay + (- LocalTZA) / msPerDay)
             (Z.to_nat (lastDay - firstDay + 1)).
Proof.
  unfold msPerDay in *.
  induction fuel as [|fuel IH]; intros firstDay w w'; simpl.
  - destruct (Z.leb_spec (firstDay * 86400000 - LocalTZA)
                (lastDay * 86400000 - LocalTZA)); [discriminate|].
    intros [= <-]. exists []. rewrite app_nil_r.
    replace (Z.to_nat (lastDay - firstDay + 1)) with 0%nat by lia. easy.
  - destruct (Z.leb_spec (firstDay * 86400000 - LocalTZA)
                (lastDay * 86400000 - LocalTZA)).
    + unfold nextLocalDay, msPerDay.
      replace (firstDay * 86400000 - LocalTZA + 86400000)
        with ((firstDay + 1) * 86400000 - LocalTZA) by lia.
      intros L. apply IH in L as (written & E & D). cbn [savedEntries] in E.
      eexists (_ :: written). rewrite E, <- app_assoc. split; [reflexivity|].
      cbn [map date]. rewrite D.
      replace (Z.to_nat (lastDay - firstDay + 1))
        with (S (Z.to_nat (lastDay - (firstDay + 1) + 1))) by lia.
      rewrite datesFrom_succ. unfold updatedEntry, toISODateString, msPerDay.
      cbn [date].
      replace ((firstDay * 86400000 - LocalTZA) / 86400000)
        with (firstDay + - LocalTZA / 86400000)
        by (rewrite Z.add_comm, <- Z.div_add by lia; f_equal; lia).
      do 2 f_equal. lia.
    + intros [= <-]. exists []. rewrite app_nil_r.
      replace (Z.to_nat (lastDay - firstDay + 1)) with 0%nat by lia. easy.
Qed.

Lemma parse_year_range s x : parseISODate s = Some x -> 0 <= year x <= 9999.
Proof.
  intros H. apply parseISODate_shape in H.
  destruct H as [y1 y2 y3 y4 m1 m2 d1 d2 a b c e f g h i _ A B C E _ _ _ _ -> _].
  apply digit_range in A, B, C, E. cbn [year]. lia.
Qed.

Lemma parse_valid s x : parseISODate s = Some x -> validYMD x = true.
Proof. intros H. apply parseISODate_shape in H. now destruct H. Qed.

Lemma YearFromDay_range xs xe k :
  validYMD xs = true -> validYMD xe = true ->
  0 <= year xs -> year xe <= 9999 ->
  MakeDay xs <= k <= MakeDay xe ->
  0 <= YearFromDay k <= 9999.
Proof.
  intros Vs Ve Hs He Hk.
  pose proof (MakeDay_in_year _ Vs) as [Ls _].
  pose proof (MakeDay_in_year _ Ve) as [_ Ue].
  pose proof (YearFromDay_spec k) as [Lk Uk].
  pose proof (DayFromYear_mono 0 (year xs) Hs).
  pose proof (DayFromYear_mono (year xe + 1) 10000 ltac:(lia)).
  split.
  - destruct (Z.le_gt_cases 0 (YearFromDay k)) as [|G]; [assumption|].
    pose proof (DayFromYear_mono (YearFromDay k + 1) 0 ltac:(lia)). lia.
  - destruct (Z.le_gt_cases (YearFromDay k) 9999) as [|G]; [assumption|].
    pose proof (DayFromYear_mono 10000 (YearFromDay k) ltac:(lia)). lia.
Qed.

Lemma getTime_format k :
  0 <= YearFromDay k <= 9999 ->
  getTime (formatISODate (YMDFromDay k)) = Some (k * msPerDay).
Proof.
  intros Hy. unfold getTime.
  rewrite parse_format; [|apply YMDFromDay_valid|exact Hy].
  now rewrite MakeDay_YMDFromDay.
Qed.

Lemma getTime_inv d t :
  getTime d = Some t ->
  exists x, parseISODate d = Some x /\ t = MakeDay x * msPerDay.
Proof.
  unfold getTime. destruct (parseISODate d) as [x|]; [|discriminate].
  intros [= <-]. eauto.
Qed.

(** At or west of Greenwich a bulk commit that passes validation writes one
    merged entry for each calendar date of the inclusive range, and nothing
    else. *)
Theorem bulk_commit_at_or_west_of_UTC LocalTZA today profile b w :
  - msPerDay < LocalTZA <= 0 ->
  validDate (bulkStartDate b) = true -> validDate (bulkEndDate b) = true ->
  String.ltb today (bulkStartDate b) = false ->
  String.ltb today (bulkEndDate b) = false ->
  String.ltb (bulkEndDate b) (bulkStartDate b) = false ->
  hasActiveErrors (bulkErrors b) = false ->
  exists written,
    savedEntries (snd (handleBulkSave LocalTZA today profile b w))
    = (savedEntries w ++ written)%list
    /\ Forall (mergedEntry profile (bulkDailyData b)) written
    /\ List.NoDup (map date written)
    /\ forall d, In d (map date written)
                 <-> dateLe (bulkStartDate b) d /\ dateLe d (bulkEndDate b).
Proof.
  intros Htz Vs Ve T1 T2 T3 Herr.
  destruct (validDate_getTime _ Vs) as [ts Hts].
  destruct (validDate_getTime _ Ve) as [te Hte].
  destruct (getTime_inv _ _ Hts) as (xs & Ps & ->).
  destruct (getTime_inv _ _ Hte) as (xe & Pe & ->).
  pose proof (parse_valid _ _ Ps) as Vxs. pose proof (parse_valid _ _ Pe) as Vxe.
  pose proof (parse_year_range _ _ Ps) as Ys.
  pose proof (parse_year_range _ _ Pe) as Ye.
  assert (Hle : MakeDay xs <= MakeDay xe).
  { rewrite (ltb_getTime _ _ _ _ Hte Hts) in T3. apply Z.ltb_ge in T3.
    unfold msPerDay in T3. lia. }
  assert (Ns : String.eqb (bulkStartDate b) "" = false).
  { destruct (String.eqb_spec (bulkStartDate b) "") as [E|]; [|reflexivity].
    rewrite E in Vs. discriminate. }
  assert (Ne : String.eqb (bulkEndDate b) "" = false).
  { destruct (String.eqb_spec (bulkEndDate b) "") as [E|]; [|reflexivity].
    rewrite E in Ve. discriminate. }
  unfold handleBulkSave. rewrite Ns, Ne, T1, T2, T3, Herr. cbn [snd].
  unfold localMidnight. rewrite Hts, Hte.
  destruct (bulkLoop_terminates
              (bulkFuel (MakeDay xs * msPerDay - LocalTZA)
                 (MakeDay xe * msPerDay - LocalTZA))
              profile (bulkDailyData b) (MakeDay xs * msPerDay - LocalTZA)
              (MakeDay xe * msPerDay - LocalTZA) w) as [w' L].
  { unfold bulkFuel. rewrite Z2Nat.id; [lia|].
    unfold msPerDay. Z.div_mod_to_equations. lia. }
  rewrite L.
  destruct (bulkLoop_log _ _ _ _ _ _ _ L) as (written & E & F).
  destruct (bulkLoop_dates _ _ _ _ _ _ _ _ L) as (written' & E' & D).
  replace (- LocalTZA / msPerDay) with 0 in D
    by (symmetry; apply Z.div_small; lia).
  rewrite Z.add_0_r in D.
  assert (written' = written) by (rewrite E in E'; now apply app_inv_head in E').
  subst written'.
  exists written. split; [exact E|]. split; [exact F|].
  rewrite D. unfold datesFrom.
  set (n := Z.to_nat (MakeDay xe - MakeDay xs + 1)).
  assert (R : forall i, (i < n)%nat ->
                getTime (formatISODate (YMDFromDay (MakeDay xs + Z.of_nat i)))
                = Some ((MakeDay xs + Z.of_nat i) * msPerDay)).
  { intros i Hi. apply getTime_format.
    apply (YearFromDay_range xs xe); try assumption; subst n; lia. }
  split.
  - apply List.NoDup_map_NoDup_ForallPairs; [|apply List.seq_NoDup].
    intros i j Hi Hj Heq. apply in_seq in Hi, Hj.
    pose proof (R i ltac:(lia)) as Ri. pose proof (R j ltac:(lia)) as Rj.
    rewrite Heq, Rj in Ri. injection Ri as Ri. unfold msPerDay in Ri. lia.
  - intros d. rewrite in_map_iff. split.
    + intros (i & <- & Hi). apply in_seq in Hi.
      unfold dateLe. rewrite (R i ltac:(lia)), Hts, Hte.
      unfold msPerDay. subst n. lia.
    + unfold dateLe. rewrite Hts, Hte.
      destruct (getTime d) as [t|] eqn:Hd; [|tauto].
      destruct (getTime_inv _ _ Hd) as (x & Px & ->).
      unfold msPerDay. intros [H1 H2].
      exists (Z.to_nat (MakeDay x - MakeDay xs)). split.
      * rewrite Z2Nat.id by lia.
        replace (MakeDay xs + (MakeDay x - MakeDay xs)) with (MakeDay x) by lia.
        rewrite YMDFromDay_MakeDay by (eapply parse_valid; eassumption).
        now apply format_parse.
      * apply in_seq. subst n. lia.
Qed.

Lemma parse_length s x : parseISODate s = Some x -> String.length s = 10%nat.
Proof.
  intros H. apply parseISODate_shape in H. now destruct H as [? ? ? ? ? ? ? ? ? ? ? ? ? ? ? ? ->].
Qed.

(** Only a rendering with a four-digit year parses back, and then to the
    date rendered. *)
Lemma parse_format_inv y x :
  validYMD y = true -> parseISODate (formatISODate y) = Some x -> x = y.
Proof.
  intros V H.
  destruct ((0 <=? year y) && (year y <=? 9999)) eqn:R.
  - apply andb_true_iff in R. rewrite !Z.leb_le in R.
    rewrite parse_format in H by (assumption || lia). congruence.
  - apply parse_length in H. unfold formatISODate in H. rewrite R in H.
    destruct (year y <? 0); discriminate H.
Qed.

(** East of Greenwich a bulk commit that passes validation never writes an
    entry for the last date of its range. *)
Theorem bulk_commit_east_of_UTC LocalTZA today profile b w :
  0 < LocalTZA <= msPerDay ->
  validDate (bulkStartDate b) = true -> validDate (bulkEndDate b) = true ->
  String.ltb today (bulkStartDate b) = false ->
  String.ltb today (bulkEndDate b) = false ->
  String.ltb (bulkEndDate b) (bulkStartDate b) = false ->
  hasActiveErrors (bulkErrors b) = false ->
  exists written,
    savedEntries (snd (handleBulkSave LocalTZA today profile b w))
    = (savedEntries w ++ written)%list
    /\ length written <> 0%nat
    /\ ~ In (bulkEndDate b) (map date written).
Proof.
  intros Htz Vs Ve T1 T2 T3 Herr.
  destruct (validDate_getTime _ Vs) as [ts Hts].
  destruct (validDate_getTime _ Ve) as [te Hte].
  destruct (getTime_inv _ _ Hts) as (xs & Ps & ->).
  destruct (getTime_inv _ _ Hte) as (xe & Pe & ->).
  assert (Hle : MakeDay xs <= MakeDay xe).
  { rewrite (ltb_getTime _ _ _ _ Hte Hts) in T3. apply Z.ltb_ge in T3.
    unfold msPerDay in T3. lia. }
  assert (Ns : String.eqb (bulkStartDate b) "" = false).
  { destruct (String.eqb_spec (bulkStartDate b) "") as [E|]; [|reflexivity].
    rewrite E in Vs. discriminate. }
  assert (Ne : String.eqb (bulkEndDate b) "" = false).
  { destruct (String.eqb_spec (bulkEndDate b) "") as [E|]; [|reflexivity].
    rewrite E in Ve. discriminate. }
  unfold handleBulkSave. rewrite Ns, Ne, T1, T2, T3, Herr. cbn [snd].
  unfold localMidnight. rewrite Hts, Hte.
  destruct (bulkLoop_terminates
              (bulkFuel (MakeDay xs * msPerDay - LocalTZA)
                 (MakeDay xe * msPerDay - LocalTZA))
              profile (bulkDailyData b) (MakeDay xs * msPerDay - LocalTZA)
              (MakeDay xe * msPerDay - LocalTZA) w) as [w' L].
  { unfold bulkFuel. rewrite Z2Nat.id; [lia|].
    unfold msPerDay. Z.div_mod_to_equations. lia. }
  rewrite L.
  destruct (bulkLoop_dates _ _ _ _ _ _ _ _ L) as (written & E & D).
  replace (- LocalTZA / msPerDay) with (-1) in D
    by (unfold msPerDay in *; Z.div_mod_to_equations; lia).
  exists written. split; [exact E|]. split.
  - intros Z. apply (f_equal (@length string)) in D.
    rewrite length_map, Z in D. unfold datesFrom in D.
    rewrite length_map, length_seq in D. lia.
  - rewrite D. unfold datesFrom. rewrite in_map_iff.
    intros (i & Hi & Hin). apply in_seq in Hin.
    rewrite <- Hi in Pe.
    apply parse_format_inv in Pe; [|apply YMDFromDay_valid].
    apply (f_equal MakeDay) in Pe. rewrite MakeDay_YMDFromDay in Pe. lia.
Qed.

(** ** Numbers: rounding in binary64 *)

Module JSNumberFacts.

Lemma digits2_pos_bounds p :
  2 ^ (Z.pos (digits2_pos p) - 1) <= Z.pos p < 2 ^ Z.pos (digits2_pos p).
Proof.
  induction p as [p IH|p IH|]; cbn [digits2_pos].
  - rewrite Pos2Z.inj_succ.
    replace (Z.succ (Z.pos (digits2_pos p)) - 1) with (Z.pos (digits2_pos p) - 1 + 1) by lia.
    rewrite Z.pow_succ_r, Z.pow_add_r by lia. lia.
  - rewrite Pos2Z.inj_succ.
    replace (Z.succ (Z.pos (digits2_pos p)) - 1) with (Z.pos (digits2_pos p) - 1 + 1) by lia.
    rewrite Z.pow_succ_r, Z.pow_add_r by lia. lia.
  - simpl. lia.
Qed.

(** The number of binary digits of a positive integer is determined by the
    powers of two around it. *)
Lemma Zdigits2_unique z d :
  0 < d -> 2 ^ (d - 1) <= z < 2 ^ d -> Zdigits2 z = d.
Proof.
  intros Hd [Hlo Hhi].
  assert (0 < z) by (pose proof (Z.pow_pos_nonneg 2 (d - 1)); lia).
  destruct z as [|p|p]; try lia. cbn [Zdigits2].
  pose proof (digits2_pos_bounds p) as [Plo Phi].
  destruct (Z.lt_trichotomy (Z.pos (digits2_pos p)) d) as [L|[E|G]]; [|exact E|].
  - assert (2 ^ Z.pos (digits2_pos p) <= 2 ^ (d - 1))
      by (apply Z.pow_le_mono_r; lia). lia.
  - assert (2 ^ d <= 2 ^ (Z.pos (digits2_pos p) - 1))
      by (apply Z.pow_le_mono_r; lia). lia.
Qed.

Lemma Zdigits2_bounds z :
  0 < z -> 0 < Zdigits2 z /\ 2 ^ (Zdigits2 z - 1) <= z < 2 ^ Zdigits2 z.
Proof.
  destruct z as [|p|p]; try lia. intros _. cbn [Zdigits2].
  split; [lia|apply digits2_pos_bounds].
Qed.

Lemma shr_m_shr_1 mrs : 0 <= shr_m mrs -> shr_m (shr_1 mrs) = shr_m mrs / 2.
Proof.
  destruct mrs as [m r s]. cbn [shr_m]. intros H.
  destruct m as [|[p|p|]|p]; try lia; cbn [shr_1 shr_m].
  - reflexivity.
  - rewrite Pos2Z.inj_xI. apply Z.div_unique with 1; lia.
  - rewrite Pos2Z.inj_xO. apply Z.div_unique with 0; lia.
  - reflexivity.
Qed.

Lemma iter_pos_nat {A} (f : A -> A) p x :
  SpecFloat.iter_pos f p x = @Nat.iter (Pos.to_nat p) A f x.
Proof.
  revert x. induction p as [p IH|p IH|]; intros x; cbn [SpecFloat.iter_pos].
  - rewrite !IH, Pos2Nat.inj_xI.
    replace (S (2 * Pos.to_nat p)) with (Pos.to_nat p + (Pos.to_nat p + 1))%nat by lia.
    rewrite !Nat.iter_add. reflexivity.
  - rewrite !IH, Pos2Nat.inj_xO.
    replace (2 * Pos.to_nat p)%nat with (Pos.to_nat p + Pos.to_nat p)%nat by lia.
    rewrite Nat.iter_add. reflexivity.
  - reflexivity.
Qed.

Lemma shr_m_iter n mrs :
  0 <= shr_m mrs ->
  shr_m (@Nat.iter n _ shr_1 mrs) = shr_m mrs / 2 ^ Z.of_nat n
  /\ 0 <= shr_m (@Nat.iter n _ shr_1 mrs).
Proof.
  intros H. induction n as [|n [IH P]].
  - simpl. rewrite Z.div_1_r. auto.
  - rewrite Nat.iter_succ. rewrite shr_m_shr_1 by exact P. rewrite IH.
    rewrite Nat2Z.inj_succ, Z.pow_succ_r by lia.
    rewrite Z.div_div by lia.
    rewrite (Z.mul_comm 2). split; [reflexivity|].
    apply Z.div_pos; [lia|].
    pose proof (Z.pow_pos_nonneg 2 (Z.of_nat n)). lia.
Qed.

Lemma shr_m_of_loc m l : shr_m (shr_record_of_loc m l) = m.
Proof. now destruct l as [|[]]. Qed.

(** Shifting a mantissa right: the mantissa is divided, the exponent
    raised. *)
Lemma shr_spec rec e n :
  0 <= shr_m rec -> 0 <= n ->
  shr_m (fst (shr rec e n)) = shr_m rec / 2 ^ n /\ snd (shr rec e n) = e + n.
Proof.
  intros H Hn. destruct n as [|p|p]; try lia; cbn [shr fst snd].
  - rewrite Z.div_1_r. split; [reflexivity|lia].
  - rewrite iter_pos_nat. destruct (shr_m_iter (Pos.to_nat p) rec H) as [-> _].
    now rewrite positive_nat_Z.
Qed.


Lemma fexp_normal e : -1021 <= e -> fexp 53 1024 e = e - 53.
Proof. unfold fexp, emin. lia. Qed.

Lemma round_nearest_even_cases M l :
  round_nearest_even M l = M \/ round_nearest_even M l = M + 1.
Proof. destruct l as [|[]]; simpl; auto. destruct (Z.even M); auto. Qed.

(** Rounding a positive mantissa of at least 53 digits, within the exponent
    range: the result is one of the two neighbours, on the grid of 53-digit
    mantissas, of the value being rounded. *)
Lemma binary_round_aux_bracket mx ex lx :
  0 < mx -> 53 <= Zdigits2 mx ->
  -1021 <= Zdigits2 mx + ex -> Zdigits2 mx + ex <= 1023 ->
  let n := Zdigits2 mx - 53 in
  let M := mx / 2 ^ n in
  exists m e,
    binary_round_aux 53 1024 false mx ex lx = S754_finite false m e
    /\ ex + n <= e <= ex + n + 1
    /\ (Z.pos m * 2 ^ (e - (ex + n)) = M \/ Z.pos m * 2 ^ (e - (ex + n)) = M + 1)
    /\ 2 ^ 52 <= M < 2 ^ 53
    /\ Zdigits2 (Z.pos m) = 53.
Proof.
  intros Hpos Hd Hlo Hhi n M.
  destruct (Zdigits2_bounds mx Hpos) as [_ [Blo Bhi]].
  assert (Hn : 0 <= n) by (subst n; lia).
  assert (P2 : 0 < 2 ^ n) by (apply Z.pow_pos_nonneg; lia).
  assert (HM : 2 ^ 52 <= M < 2 ^ 53).
  { subst M. split.
    - apply Z.div_le_lower_bound; [lia|].
      rewrite <- Z.pow_add_r by lia.
      replace (n + 52) with (Zdigits2 mx - 1) by (subst n; lia). exact Blo.
    - apply Z.div_lt_upper_bound; [lia|].
      rewrite <- Z.pow_add_r by lia.
      replace (n + 53) with (Zdigits2 mx) by (subst n; lia). exact Bhi. }
  unfold binary_round_aux, shr_fexp.
  rewrite (fexp_normal _ Hlo).
  replace (Zdigits2 mx + ex - 53 - ex) with n by (subst n; lia).
  pose proof (shr_spec (shr_record_of_loc mx lx) ex n) as S1.
  rewrite shr_m_of_loc in S1. specialize (S1 ltac:(lia) Hn).
  destruct (shr (shr_record_of_loc mx lx) ex n) as [mrs' e'].
  cbn [fst snd] in S1. destruct S1 as [S1 ->]. fold M in S1. rewrite S1.
  destruct (round_nearest_even_cases M (loc_of_shr_record mrs')) as [R|R];
    rewrite R; clear R.
  - (* rounded down: the mantissa keeps 53 digits *)
    rewrite (Zdigits2_unique M 53) by (change (53 - 1) with 52; lia).
    rewrite fexp_normal by (subst n; lia).
    replace (53 + (ex + n) - 53 - (ex + n)) with 0 by lia.
    cbn [shr shr_record_of_loc shr_m].
    destruct M as [|m|m] eqn:EM; try lia.
    replace (ex + n <=? 1024 - 53) with true by (symmetry; apply Z.leb_le; subst n; lia).
    exists m, (ex + n). rewrite Z.sub_diag, Z.mul_1_r.
    repeat split; try lia. apply Zdigits2_unique; [lia|change (53 - 1) with 52; lia].
  - destruct (Z.eq_dec (M + 1) (2 ^ 53)) as [Top|NotTop].
    + (* rounded up to 2^53: one more shift *)
      rewrite Top.
      rewrite (Zdigits2_unique (2 ^ 53) 54) by (simpl; lia).
      rewrite fexp_normal by (subst n; lia).
      replace (54 + (ex + n) - 53 - (ex + n)) with 1 by lia.
      change (2 ^ 53) with 9007199254740992.
      cbn [shr shr_record_of_loc shr_m SpecFloat.iter_pos shr_1 fst snd].
      replace (ex + n + 1 <=? 1024 - 53) with true
        by (symmetry; apply Z.leb_le; subst n; lia).
      eexists _, (ex + n + 1). split; [reflexivity|].
      replace (ex + n + 1 - (ex + n)) with 1 by lia.
      repeat split; lia.
    + rewrite (Zdigits2_unique (M + 1) 53) by (change (53 - 1) with 52; lia).
      rewrite fexp_normal by (subst n; lia).
      replace (53 + (ex + n) - 53 - (ex + n)) with 0 by lia.
      cbn [shr shr_record_of_loc shr_m].
      destruct (M + 1) as [|m|m] eqn:EM; try lia.
      replace (ex + n <=? 1024 - 53) with true by (symmetry; apply Z.leb_le; subst n; lia).
      exists m, (ex + n). rewrite Z.sub_diag, Z.mul_1_r.
      repeat split; try lia. apply Zdigits2_unique; [lia|change (53 - 1) with 52; lia].
Qed.


Lemma binary_round_aux_exact mx ex :
  Zdigits2 (Z.pos mx) = 53 -> -1021 <= 53 + ex -> 53 + ex <= 1023 ->
  binary_round_aux 53 1024 false (Z.pos mx) ex loc_Exact = S754_finite false mx ex.
Proof.
  intros D Hlo Hhi. unfold binary_round_aux, shr_fexp.
  rewrite D, fexp_normal by lia.
  replace (53 + ex - 53 - ex) with 0 by lia.
  cbn [shr shr_record_of_loc loc_of_shr_record round_nearest_even shr_m].
  rewrite D, fexp_normal by lia.
  replace (53 + ex - 53 - ex) with 0 by lia.
  cbn [shr shr_record_of_loc shr_m].
  replace (ex <=? 1024 - 53) with true by (symmetry; apply Z.leb_le; lia).
  reflexivity.
Qed.

Lemma iter_xO p k : Z.pos (Pos.iter xO p k) = Z.pos p * 2 ^ Z.pos k.
Proof.
  induction k as [|k IH] using Pos.peano_ind.
  - simpl. lia.
  - rewrite Pos.iter_succ, Pos2Z.inj_xO, IH, Pos2Z.inj_succ, Z.pow_succ_r by lia.
    lia.
Qed.

Lemma Zdigits2_lower z k : 0 < k -> 2 ^ (k - 1) <= z -> k <= Zdigits2 z.
Proof.
  intros Hk H.
  assert (0 < z) by (pose proof (Z.pow_pos_nonneg 2 (k - 1)); lia).
  destruct (Zdigits2_bounds z) as [Hd [_ Hhi]]; [assumption|].
  destruct (Z.le_gt_cases k (Zdigits2 z)) as [|G]; [assumption|].
  assert (2 ^ Zdigits2 z <= 2 ^ (k - 1)) by (apply Z.pow_le_mono_r; lia). lia.
Qed.

Lemma Zdigits2_upper z k : 0 < z -> 0 <= k -> z < 2 ^ k -> Zdigits2 z <= k.
Proof.
  intros Hz Hk H.
  destruct (Zdigits2_bounds z Hz) as [Hd [Hlo _]].
  destruct (Z.le_gt_cases (Zdigits2 z) k) as [|G]; [assumption|].
  assert (2 ^ k <= 2 ^ (Zdigits2 z - 1)) by (apply Z.pow_le_mono_r; lia). lia.
Qed.

(** An integer below [2^53] is a Number, exactly. *)
Lemma ofZ_exact s :
  0 < s < 2 ^ 53 ->
  exists m e,
    binary_normalize 53 1024 s 0 false = S754_finite false m e
    /\ Zdigits2 (Z.pos m) = 53 /\ -52 <= e <= 0 /\ Z.pos m = s * 2 ^ (- e).
Proof.
  intros [Hpos Hlt]. destruct s as [|p|p]; try lia.
  cbn [binary_normalize]. unfold binary_round, shl_align.
  destruct (Zdigits2_bounds (Z.pos p)) as [Hd [Blo Bhi]]; [lia|].
  pose proof (Zdigits2_upper (Z.pos p) 53 ltac:(lia) ltac:(lia) Hlt) as Hd53.
  cbn [Zdigits2] in *.
  rewrite fexp_normal by lia.
  replace (Z.pos (digits2_pos p) + 0 - 53 - 0) with (Z.pos (digits2_pos p) - 53) by lia.
  destruct (Z.pos (digits2_pos p) - 53) as [|k|k] eqn:K; try lia.
  - exists p, 0. split; [|repeat split; try lia].
    apply binary_round_aux_exact; cbn [Zdigits2]; lia.
  - exists (Pos.iter xO p k), (Z.pos (digits2_pos p) + 0 - 53).
    assert (D : Zdigits2 (Z.pos (Pos.iter xO p k)) = 53).
    { apply Zdigits2_unique; [lia|]. rewrite iter_xO.
      replace (Z.pos k) with (53 - Z.pos (digits2_pos p)) by lia.
      split.
      - replace (53 - 1) with (Z.pos (digits2_pos p) - 1 + (53 - Z.pos (digits2_pos p))) by lia.
        rewrite Z.pow_add_r by lia. apply Z.mul_le_mono_nonneg_r; [|exact Blo].
        apply Z.pow_nonneg; lia.
      - replace 53 with (Z.pos (digits2_pos p) + (53 - Z.pos (digits2_pos p))) at 2 by lia.
        rewrite Z.pow_add_r by lia. apply Z.mul_lt_mono_pos_r; [|exact Bhi].
        apply Z.pow_pos_nonneg; lia. }
    split; [apply binary_round_aux_exact; [exact D|lia..]|].
    split; [exact D|]. split; [lia|].
    rewrite iter_xO. f_equal. f_equal. lia.
Qed.

Lemma div_bracket m1 e1 m2 e2 :
  Zdigits2 (Z.pos m1) = 53 -> Zdigits2 (Z.pos m2) = 53 ->
  -60 <= e1 <= 0 -> -60 <= e2 <= 0 ->
  exists m e n M,
    SFdiv 53 1024 (S754_finite false m1 e1) (S754_finite false m2 e2)
    = S754_finite false m e
    /\ Zdigits2 (Z.pos m) = 53
    /\ 0 <= n <= 1
    /\ e1 - e2 - 53 + n <= e <= e1 - e2 - 53 + n + 1
    /\ (Z.pos m * 2 ^ (e - (e1 - e2 - 53 + n)) = M
        \/ Z.pos m * 2 ^ (e - (e1 - e2 - 53 + n)) = M + 1)
    /\ 2 ^ 52 <= M
    /\ M * 2 ^ n * Z.pos m2 <= Z.pos m1 * 2 ^ 53 < (M + 1) * 2 ^ n * Z.pos m2.
Proof.
  intros D1 D2 He1 He2.
  destruct (Zdigits2_bounds (Z.pos m1)) as [_ [L1 U1]]; [lia|].
  destruct (Zdigits2_bounds (Z.pos m2)) as [_ [L2 U2]]; [lia|].
  rewrite D1 in L1, U1. rewrite D2 in L2, U2. change (53 - 1) with 52 in *.
  unfold SFdiv, SFdiv_core_binary. rewrite D1, D2.
  replace (53 + e1 - (53 + e2)) with (e1 - e2) by lia.
  rewrite fexp_normal by lia.
  rewrite Z.min_l by lia.
  replace (e1 - e2 - (e1 - e2 - 53)) with 53 by lia.
  rewrite Z.shiftl_mul_pow2 by lia.
  pose proof (Z_div_mod (Z.pos m1 * 2 ^ 53) (Z.pos m2) ltac:(lia)) as DM.
  destruct (Z.div_eucl (Z.pos m1 * 2 ^ 53) (Z.pos m2)) as [q r].
  destruct DM as [Eq Hr].
  assert (Q : 2 ^ 52 <= q < 2 ^ 54) by nia.
  assert (Dlo : 53 <= Zdigits2 q) by (apply Zdigits2_lower; [lia|change (53 - 1) with 52; lia]).
  assert (Dhi : Zdigits2 q <= 54) by (apply Zdigits2_upper; lia).
  cbn [xorb].
  destruct (binary_round_aux_bracket q (e1 - e2 - 53) (new_location (Z.pos m2) r))
    as (m & e & R & He & Hm & HM & Dm); try lia.
  exists m, e, (Zdigits2 q - 53), (q / 2 ^ (Zdigits2 q - 53)).
  replace (e1 - e2 - 53 + (Zdigits2 q - 53)) with (e1 - e2 - 53 + (Zdigits2 q - 53)) in * by lia.
  split; [exact R|]. split; [exact Dm|]. split; [lia|]. split; [exact He|].
  split; [exact Hm|]. split; [lia|].
  assert (P : 0 < 2 ^ (Zdigits2 q - 53)) by (apply Z.pow_pos_nonneg; lia).
  pose proof (Z.div_mod q (2 ^ (Zdigits2 q - 53)) ltac:(lia)) as E2.
  pose proof (Z.mod_pos_bound q (2 ^ (Zdigits2 q - 53)) P) as B2.
  set (M := q / 2 ^ (Zdigits2 q - 53)) in *.
  set (u := 2 ^ (Zdigits2 q - 53)) in *.
  set (w := q mod u) in *.
  nia.
Qed.

Lemma mul_bracket m1 e1 m2 e2 :
  Zdigits2 (Z.pos m1) = 53 -> Zdigits2 (Z.pos m2) = 53 ->
  -200 <= e1 <= 200 -> -200 <= e2 <= 200 ->
  exists m e n M,
    SFmul 53 1024 (S754_finite false m1 e1) (S754_finite false m2 e2)
    = S754_finite false m e
    /\ Zdigits2 (Z.pos m) = 53
    /\ 0 <= n
    /\ e1 + e2 + n <= e <= e1 + e2 + n + 1
    /\ (Z.pos m * 2 ^ (e - (e1 + e2 + n)) = M
        \/ Z.pos m * 2 ^ (e - (e1 + e2 + n)) = M + 1)
    /\ 2 ^ 52 <= M
    /\ M * 2 ^ n <= Z.pos m1 * Z.pos m2 < (M + 1) * 2 ^ n.
Proof.
  intros D1 D2 He1 He2.
  destruct (Zdigits2_bounds (Z.pos m1)) as [_ [L1 U1]]; [lia|].
  destruct (Zdigits2_bounds (Z.pos m2)) as [_ [L2 U2]]; [lia|].
  rewrite D1 in L1, U1. rewrite D2 in L2, U2. change (53 - 1) with 52 in *.
  unfold SFmul. cbn [xorb]. rewrite Pos2Z.inj_mul.
  set (x := Z.pos m1 * Z.pos m2).
  assert (X : 2 ^ 104 <= x < 2 ^ 106).
  { subst x. change (2 ^ 104) with (2 ^ 52 * 2 ^ 52).
    change (2 ^ 106) with (2 ^ 53 * 2 ^ 53). nia. }
  assert (Dlo : 105 <= Zdigits2 x) by (apply Zdigits2_lower; [lia|change (105 - 1) with 104; lia]).
  assert (Dhi : Zdigits2 x <= 106) by (apply Zdigits2_upper; lia).
  destruct (binary_round_aux_bracket x (e1 + e2) loc_Exact)
    as (m & e & R & He & Hm & HM & Dm); try lia.
  exists m, e, (Zdigits2 x - 53), (x / 2 ^ (Zdigits2 x - 53)).
  split; [exact R|]. split; [exact Dm|]. split; [lia|]. split; [exact He|].
  split; [exact Hm|]. split; [lia|].
  assert (P : 0 < 2 ^ (Zdigits2 x - 53)) by (apply Z.pow_pos_nonneg; lia).
  pose proof (Z.div_mod x (2 ^ (Zdigits2 x - 53)) ltac:(lia)) as E2.
  pose proof (Z.mod_pos_bound x (2 ^ (Zdigits2 x - 53)) P) as B2.
  set (M := x / 2 ^ (Zdigits2 x - 53)) in *.
  set (u := 2 ^ (Zdigits2 x - 53)) in *.
  set (w := x mod u) in *.
  nia.
Qed.

End JSNumberFacts.

Module JSNumberReal.
Import JSNumberFacts.
Local Open Scope R_scope.

Lemma p2_pos e : 0 < powerRZ 2 e.
Proof. apply powerRZ_lt. lra. Qed.

Lemma p2_add a b : powerRZ 2 (a + b) = powerRZ 2 a * powerRZ 2 b.
Proof. apply powerRZ_add. lra. Qed.

Lemma IZR_pow2 k : (0 <= k)%Z -> IZR (2 ^ k) = powerRZ 2 k.
Proof.
  intros H. rewrite <- (Z2Nat.id k H), <- pow_IZR. apply pow_powerRZ.
Qed.

(** A value [v] on one of the two ends of a cell of width [B] that holds
    [Y], the cell starting at [M * B] with [M >= 2^52]: the relative error
    is at most [2^-52]. *)
Lemma bracket_rel (M B Y v c : R) :
  4503599627370496 <= M -> 0 < B -> 0 < c ->
  M * B <= Y < (M + 1) * B ->
  v = M * B \/ v = (M + 1) * B ->
  - (Y * c * JSNumber.eps) <= v * c - Y * c <= Y * c * JSNumber.eps.
Proof.
  intros HM HB Hc [Hlo Hhi] Hv. unfold JSNumber.eps.
  assert (HB' : B <= Y * / 4503599627370496) by nra.
  assert (D : - B <= v - Y <= B) by (destruct Hv as [-> | ->]; nra).
  split; nra.
Qed.


Lemma p2_inv a : powerRZ 2 a * powerRZ 2 (- a) = 1.
Proof. rewrite <- p2_add, Z.add_opp_diag_r. reflexivity. Qed.

Lemma exact_value s m e :
  (e <= 0)%Z -> Z.pos m = (s * 2 ^ (- e))%Z -> IZR s = JSNumber.F2R m e.
Proof.
  intros He H. unfold JSNumber.F2R. rewrite H, mult_IZR, IZR_pow2 by lia.
  rewrite Rmult_assoc, (Rmult_comm (powerRZ 2 (- e))), p2_inv. ring.
Qed.

Lemma grid_value m e E M' :
  (E <= e)%Z -> (Z.pos m * 2 ^ (e - E))%Z = M' -> JSNumber.F2R m e = IZR M' * powerRZ 2 E.
Proof.
  intros He <-. unfold JSNumber.F2R. rewrite mult_IZR, IZR_pow2 by lia.
  rewrite Rmult_assoc, <- p2_add. do 2 f_equal. lia.
Qed.

Lemma IZR_M_cases (x M : Z) :
  x = M \/ x = (M + 1)%Z -> IZR x = IZR M \/ IZR x = IZR M + 1.
Proof. intros [->| ->]; [now left|right]. now rewrite plus_IZR. Qed.

(** The quotient of two integers below [2^53], as computed, is within a
    relative error of [2^-52] of the exact quotient. *)
Lemma div_error s t :
  (0 < s < 2 ^ 53)%Z -> (0 < t < 2 ^ 53)%Z ->
  exists m e,
    SFdiv 53 1024 (binary_normalize 53 1024 s 0 false)
      (binary_normalize 53 1024 t 0 false) = S754_finite false m e
    /\ Zdigits2 (Z.pos m) = 53%Z /\ (-200 <= e <= 200)%Z
    /\ - (IZR s * JSNumber.eps) <= JSNumber.F2R m e * IZR t - IZR s <= IZR s * JSNumber.eps.
Proof.
  intros Hs Ht.
  destruct (ofZ_exact s Hs) as (m1 & e1 & -> & D1 & He1 & V1).
  destruct (ofZ_exact t Ht) as (m2 & e2 & -> & D2 & He2 & V2).
  destruct (div_bracket m1 e1 m2 e2 D1 D2 ltac:(lia) ltac:(lia))
    as (m & e & n & M & -> & Dm & Hn & He & Hm & HM & Hb).
  exists m, e. split; [reflexivity|]. split; [exact Dm|]. split; [lia|].
  apply IZR_M_cases in Hm.
  rewrite (exact_value s m1 e1 ltac:(lia) V1), (exact_value t m2 e2 ltac:(lia) V2).
  rewrite (grid_value m e (e1 - e2 - 53 + n) _ ltac:(lia) eq_refl).
  unfold JSNumber.F2R.
  assert (PE : powerRZ 2 (e1 - e2 - 53 + n)
               = powerRZ 2 e1 * powerRZ 2 (- e2) * powerRZ 2 (- 53) * powerRZ 2 n)
    by (rewrite <- !p2_add; f_equal; lia).
  rewrite PE. clear PE.
  pose proof (p2_pos e1) as P1. pose proof (p2_pos (- 53)) as P53.
  pose proof (p2_pos n) as Pn. pose proof (p2_inv e2) as I2.
  pose proof (p2_inv 53) as I53. change (- (53))%Z with (-53)%Z in I53.
  assert (Hb' : IZR M * (powerRZ 2 n * IZR (Z.pos m2)) <= IZR (Z.pos m1) * powerRZ 2 53
                < (IZR M + 1) * (powerRZ 2 n * IZR (Z.pos m2))).
  { destruct Hb as [Hb1 Hb2]. apply IZR_le in Hb1. apply IZR_lt in Hb2.
    rewrite !mult_IZR in Hb1, Hb2. rewrite plus_IZR in Hb2.
    rewrite !IZR_pow2 in Hb1, Hb2 by lia. lra. }
  assert (HM' : 4503599627370496 <= IZR M) by (apply IZR_le; exact HM).
  assert (PB : 0 < powerRZ 2 n * IZR (Z.pos m2))
    by (apply Rmult_lt_0_compat; [exact Pn|apply IZR_lt; lia]).
  pose proof (bracket_rel (IZR M) (powerRZ 2 n * IZR (Z.pos m2))
                (IZR (Z.pos m1) * powerRZ 2 53)
                (IZR (Z.pos m * 2 ^ (e - (e1 - e2 - 53 + n)))
                 * (powerRZ 2 n * IZR (Z.pos m2)))
                (powerRZ 2 e1 * powerRZ 2 (- 53)) HM' PB
                ltac:(nra) Hb') as K.
  specialize (K ltac:(destruct Hm as [-> | ->]; [left|right]; reflexivity)).
  set (x := IZR (Z.pos m * 2 ^ (e - (e1 - e2 - 53 + n)))) in *.
  set (a1 := powerRZ 2 e1) in *. set (a2 := powerRZ 2 e2) in *.
  set (b2 := powerRZ 2 (- e2)) in *. set (c := powerRZ 2 (- 53)) in *.
  set (d := powerRZ 2 53) in *. set (pn := powerRZ 2 n) in *.
  set (z1 := IZR (Z.pos m1)) in *. set (z2 := IZR (Z.pos m2)) in *.
  assert (G1 : x * (a1 * b2 * c * pn) * (z2 * a2) = x * (pn * z2) * (a1 * c)).
  { transitivity (x * (pn * z2) * (a1 * c) * (a2 * b2)); [ring|]. rewrite I2. ring. }
  assert (G2 : z1 * a1 = z1 * d * (a1 * c)).
  { transitivity (z1 * a1 * (d * c)); [|ring]. rewrite I53. ring. }
  rewrite G1, G2.
  exact K.
Qed.

Lemma hundred :
  binary_normalize 53 1024 100 0 false
  = S754_finite false 7036874417766400 (-46).
Proof. vm_compute. reflexivity. Qed.

(** The product by 100, as computed, is within a relative error of
    [2^-52] of the exact product. *)
Lemma mul_error m1 e1 :
  Zdigits2 (Z.pos m1) = 53%Z -> (-200 <= e1 <= 200)%Z ->
  exists m e,
    SFmul 53 1024 (S754_finite false m1 e1)
      (binary_normalize 53 1024 100 0 false) = S754_finite false m e
    /\ (-400 <= e <= 400)%Z
    /\ - (100 * JSNumber.F2R m1 e1 * JSNumber.eps) <= JSNumber.F2R m e - 100 * JSNumber.F2R m1 e1
       <= 100 * JSNumber.F2R m1 e1 * JSNumber.eps.
Proof.
  intros D1 He1. rewrite hundred.
  destruct (mul_bracket m1 e1 7036874417766400 (-46) D1 eq_refl
              ltac:(lia) ltac:(lia))
    as (m & e & n & M & -> & Dm & Hn & He & Hm & HM & Hb).
  exists m, e. split; [reflexivity|].
  assert (Hn' : (n <= 53)%Z).
  { destruct (Z.le_gt_cases n 53) as [|G]; [assumption|exfalso].
    destruct (Zdigits2_bounds (Z.pos m1)) as [_ [_ U1]]; [lia|].
    rewrite D1 in U1.
    assert (2 ^ 54 <= 2 ^ n)%Z by (apply Z.pow_le_mono_r; lia).
    assert (Z.pos m1 * 7036874417766400 < 2 ^ 53 * 2 ^ 53)%Z by nia.
    assert (2 ^ 52 * 2 ^ 54 <= M * 2 ^ n)%Z by (apply Z.mul_le_mono_nonneg; lia).
    change (2 ^ 53 * 2 ^ 53)%Z with (2 ^ 52 * 2 ^ 54)%Z in *. lia. }
  split; [lia|].
  apply IZR_M_cases in Hm.
  rewrite (grid_value m e (e1 + -46 + n) _ ltac:(lia) eq_refl).
  unfold JSNumber.F2R.
  assert (PE : powerRZ 2 (e1 + -46 + n)
               = powerRZ 2 e1 * powerRZ 2 (-46) * powerRZ 2 n)
    by (rewrite <- !p2_add; reflexivity).
  rewrite PE. clear PE.
  pose proof (p2_pos e1) as P1. pose proof (p2_pos (-46)) as P46.
  pose proof (p2_pos n) as Pn. pose proof (p2_inv 46) as I46.
  change (- (46))%Z with (-46)%Z in I46.
  assert (H100 : IZR 7036874417766400 = 100 * powerRZ 2 46).
  { rewrite <- IZR_pow2 by lia. rewrite <- mult_IZR. reflexivity. }
  assert (Hb' : IZR M * powerRZ 2 n <= IZR (Z.pos m1) * IZR 7036874417766400
                < (IZR M + 1) * powerRZ 2 n).
  { destruct Hb as [Hb1 Hb2]. apply IZR_le in Hb1. apply IZR_lt in Hb2.
    rewrite !mult_IZR in Hb1, Hb2. rewrite plus_IZR in Hb2.
    rewrite !IZR_pow2 in Hb1, Hb2 by lia. lra. }
  assert (HM' : 4503599627370496 <= IZR M) by (apply IZR_le; exact HM).
  pose proof (bracket_rel (IZR M) (powerRZ 2 n)
                (IZR (Z.pos m1) * IZR 7036874417766400)
                (IZR (Z.pos m * 2 ^ (e - (e1 + -46 + n))) * powerRZ 2 n)
                (powerRZ 2 e1 * powerRZ 2 (-46)) HM' Pn
                ltac:(nra) Hb') as K.
  specialize (K ltac:(destruct Hm as [-> | ->]; [left|right]; reflexivity)).
  rewrite H100 in K.
  set (x := IZR (Z.pos m * 2 ^ (e - (e1 + -46 + n)))) in *.
  set (a1 := powerRZ 2 e1) in *. set (c := powerRZ 2 (-46)) in *.
  set (d := powerRZ 2 46) in *. set (pn := powerRZ 2 n) in *.
  set (z1 := IZR (Z.pos m1)) in *.
  assert (G1 : x * (a1 * c * pn) = x * pn * (a1 * c)) by ring.
  assert (G2 : 100 * (z1 * a1) = z1 * (100 * d) * (a1 * c)).
  { transitivity (100 * (z1 * a1) * (d * c)); [|ring]. rewrite I46. ring. }
  rewrite G1, G2. exact K.
Qed.


Lemma F2R_pos m e : 0 < JSNumber.F2R m e.
Proof.
  unfold JSNumber.F2R. apply Rmult_lt_0_compat; [apply IZR_lt; lia|apply p2_pos].
Qed.

(** [toFixed]'s integer is the nearest integer to ten times the value, the
    larger one on a tie. *)
Lemma nearestTenths_bounds m e :
  IZR (JSNumber.nearestTenths m e) <= 10 * JSNumber.F2R m e + / 2
  < IZR (JSNumber.nearestTenths m e) + 1.
Proof.
  unfold JSNumber.nearestTenths, JSNumber.F2R.
  destruct (Z.leb_spec 0 e) as [He|He].
  - rewrite !mult_IZR, IZR_pow2 by lia. lra.
  - assert (P : (0 < 2 ^ (- e + 1))%Z) by (apply Z.pow_pos_nonneg; lia).
    pose proof (Z.div_mod (20 * Z.pos m + 2 ^ (- e)) (2 ^ (- e + 1)) ltac:(lia)) as E.
    pose proof (Z.mod_pos_bound (20 * Z.pos m + 2 ^ (- e)) (2 ^ (- e + 1)) P) as [B1 B2].
    set (q := ((20 * Z.pos m + 2 ^ (- e)) / 2 ^ (- e + 1))%Z) in *.
    set (r := ((20 * Z.pos m + 2 ^ (- e)) mod 2 ^ (- e + 1))%Z) in *.
    apply (f_equal IZR) in E. apply IZR_le in B1. apply IZR_lt in B2.
    rewrite !plus_IZR, !mult_IZR, !IZR_pow2 in E by lia.
    rewrite IZR_pow2 in B2 by lia.
    rewrite p2_add in E, B2.
    replace (powerRZ 2 1) with 2 in E, B2 by (simpl; lra).
    pose proof (p2_pos (- e)) as Pk. pose proof (p2_inv e) as I.
    set (pk := powerRZ 2 (- e)) in *. set (pe := powerRZ 2 e) in *.
    set (z := IZR (Z.pos m)) in *.
    assert (Z1 : z = z * pe * pk) by (rewrite Rmult_assoc, I; ring).
    assert (F : 20 * (z * pe) * pk + pk = pk * 2 * IZR q + IZR r) by nra.
    split; nra.
Qed.

Lemma renderTenths_zero : JSNumber.renderTenths 0 = "0.0"%string.
Proof. reflexivity. Qed.

(** The conversion rate string shows [n / 10] for an integer [n] nearest to
    [1000 * signed / total]. *)
Lemma conversionRateOf_nearest s t :
  (0 <= s <= 10 ^ 11)%Z -> (0 < t < 2 ^ 53)%Z ->
  exists n,
    conversionRateOf s t = Some (JSNumber.renderTenths n)
    /\ (2 * Z.abs (n * t - 1000 * s) <= t)%Z.
Proof.
  intros Hs Ht. unfold conversionRateOf.
  replace (0 <? t)%Z with true by (symmetry; apply Z.ltb_lt; lia).
  unfold JSNumber.mul, JSNumber.div, JSNumber.ofZ, JSNumber.prec, JSNumber.emax.
  destruct (Z.eq_dec s 0%Z) as [->|Hs0].
  - destruct (ofZ_exact t Ht) as (m2 & e2 & -> & _).
    exists 0%Z. rewrite hundred. cbn. split; [reflexivity|lia].
  - destruct (div_error s t ltac:(lia) Ht) as (m1 & e1 & -> & D1 & He1 & K1).
    destruct (mul_error m1 e1 D1 He1) as (m & e & -> & He & K2).
    pose proof (nearestTenths_bounds m e) as [N1 N2].
    pose proof (F2R_pos m1 e1) as V0. pose proof (F2R_pos m e) as P0.
    set (n := JSNumber.nearestTenths m e) in *.
    set (V := JSNumber.F2R m1 e1) in *. set (P := JSNumber.F2R m e) in *.
    assert (HS : 0 < IZR s <= 100000000000)
      by (split; [apply IZR_lt; lia|apply IZR_le; lia]).
    assert (HT : 1 <= IZR t) by (apply IZR_le; lia).
    unfold JSNumber.eps in K1, K2.
    set (S := IZR s) in *. set (T := IZR t) in *.
    assert (A1 : V * T <= S + S * / 4503599627370496) by lra.
    assert (A2 : S - S * / 4503599627370496 <= V * T) by lra.
    assert (A3 : P * T - 100 * (V * T) <= 100 * (V * T) * / 4503599627370496) by nra.
    assert (A4 : - (100 * (V * T) * / 4503599627370496) <= P * T - 100 * (V * T)) by nra.
    assert (A5 : - / 100 <= P * T - 100 * S <= / 100) by nra.
    assert (A6 : IZR n * T - 10 * (P * T) <= T * / 2) by nra.
    assert (A7 : - (T * / 2) < IZR n * T - 10 * (P * T)) by nra.
    assert (C1 : IZR (2 * (n * t - 1000 * s)) < IZR (t + 1)).
    { rewrite mult_IZR, minus_IZR, !mult_IZR, plus_IZR. fold S T. lra. }
    assert (C2 : IZR (- (t + 1)) < IZR (2 * (n * t - 1000 * s))).
    { rewrite opp_IZR, mult_IZR, minus_IZR, !mult_IZR, plus_IZR. fold S T. lra. }
    apply lt_IZR in C1, C2.
    assert (C3 : IZR n < IZR (10 ^ 22)).
    { change (IZR (10 ^ 22)) with 10000000000000000000000.
      assert (P <= P * T) by nra. lra. }
    apply lt_IZR in C3.
    exists n. cbn [JSNumber.toFixed1]. fold n.
    replace (10 ^ 22 <=? n)%Z with false by (symmetry; apply Z.leb_gt; exact C3).
    split; [reflexivity|lia].
Qed.

End JSNumberReal.

Import JSNumberReal.

(** C4. For every target month, with [totalLeadsIn] the sum of the month's
    [newLeads] and [repiqueLeads]: when [totalLeadsIn] is 0 the conversion
    rate is ["0.0"]; when it is positive the rate is the decimal [n / 10]
    with [n] an integer nearest to [1000 * signedLeads / totalLeadsIn], that
    is [signedLeads / totalLeadsIn * 100] rounded to one decimal place (on an
    exact tie either neighbour).  The counts are those a Number holds
    exactly and for which the two roundings of the division and of the
    product cannot reach the next tenth: [totalLeadsIn < 2^53] and
    [signedLeads <= 10^11]. *)
Theorem conversion_rate_rounded (profile : BrokerProfile) (selectedMonth : string) :
  let s := monthlySummary profile selectedMonth in
  let totalLeadsIn := Summary.newLeads s + Summary.repiqueLeads s in
  (totalLeadsIn <= 0 -> Summary.conversionRate s = Some "0.0")
  /\ (0 < totalLeadsIn < 2 ^ 53 -> 0 <= Summary.signedLeads s <= 10 ^ 11 ->
      exists n,
        Summary.conversionRate s = Some (JSNumber.renderTenths n)
        /\ 2 * Z.abs (n * totalLeadsIn - 1000 * Summary.signedLeads s)
           <= totalLeadsIn).
Proof.
  intros s totalLeadsIn. subst s totalLeadsIn. unfold monthlySummary.
  cbn [Summary.conversionRate Summary.newLeads Summary.repiqueLeads
       Summary.signedLeads].
  split.
  - intros H. unfold conversionRateOf.
    now replace (0 <? _) with false by (symmetry; apply Z.ltb_ge; exact H).
  - intros Ht Hs. now apply conversionRateOf_nearest.
Qed.

(** Three of five leads signed is 60.0 percent; one of three is 33.3; two of
    three is 66.7. *)
Example conversion_rate_samples :
  conversionRateOf 3 5 = Some "60.0"
  /\ conversionRateOf 1 3 = Some "33.3"
  /\ conversionRateOf 2 3 = Some "66.7"
  /\ conversionRateOf 0 7 = Some "0.0"
  /\ conversionRateOf 4 0 = Some "0.0".
Proof. vm_compute. repeat split. Qed.

(** On an exact tie the side depends on the rounding of the quotient:
    1 of 2000 is 0.05 percent and shows as 0.1, 9 of 2000 is 0.45 percent
    and shows as 0.4. *)
Example conversion_rate_ties :
  conversionRateOf 1 2000 = Some "0.1" /\ conversionRateOf 9 2000 = Some "0.4".
Proof. vm_compute. split; reflexivity. Qed.
